(** * bodhi: the update life cycle of [bodhi/model/model.py]

    A shallow embedding of the SQLAlchemy model classes of bodhi
    ([Release], [Package], [Build], [Update], [Comment], [CVE], [Bug]) and
    of the methods of [Update] that drive the update state machine:
    [assign_id], [set_request], [request_complete], [get_build_tag],
    [update_cves], [comment], [unpush], [untag], [obsolete] and
    [get_maintainers].

    Python objects become records, the mutable [self] and the rows of the
    database become an explicit state, exceptions become an outcome of the
    computation, and the external collaborators (koji, rpm, the identity
    layer, the clock) become an environment that the methods read.  A
    record holds the attributes that the class body declares; where a
    method reads another name on [self], the embedding raises
    [AttributeError] as Python does. *)

From Stdlib Require Import ZArith List String Ascii Bool Lia DecimalString.
From Stdlib Require Import DecimalPos DecimalN.
Import ListNotations.

Local Open Scope string_scope.
Local Open Scope Z_scope.

(** ** Python built-ins used by the model *)

Module Py.

(** [x in seq] for strings. *)
Definition in_ (x : string) (l : list string) : bool :=
  existsb (String.eqb x) l.

(** [x in seq] for integers. *)
Definition in_Z (x : Z) (l : list Z) : bool :=
  existsb (Z.eqb x) l.

(** [sep.join(l)]. *)
Definition join (sep : string) (l : list string) : string :=
  String.concat sep l.

(** [s.split(sep)] for a one-character separator: never the empty list. *)
Fixpoint split (sep : ascii) (s : string) : list string :=
  match s with
  | EmptyString => [EmptyString]
  | String c s' =>
      if Ascii.eqb c sep then EmptyString :: split sep s'
      else match split sep s' with
           | [] => [String c EmptyString]
           | w :: ws => String c w :: ws
           end
  end.

Fixpoint rev_string (s acc : string) : string :=
  match s with
  | EmptyString => acc
  | String c s' => rev_string s' (String c acc)
  end.

(** [s.endswith(suffix)]. *)
Definition endswith (s suffix : string) : bool :=
  String.prefix (rev_string suffix "") (rev_string s "").

Definition is_space (c : ascii) : bool :=
  let n := nat_of_ascii c in
  (Nat.eqb n 32 || (Nat.leb 9 n && Nat.leb n 13))%bool.

Fixpoint lstrip (s : string) : string :=
  match s with
  | String c s' => if is_space c then lstrip s' else s
  | EmptyString => EmptyString
  end.

Definition strip (s : string) : string :=
  rev_string (lstrip (rev_string (lstrip s) "")) "".

Definition digit_of (c : ascii) : option Z :=
  let n := nat_of_ascii c in
  if (Nat.leb 48 n && Nat.leb n 57)%bool then Some (Z.of_nat n - 48) else None.

Fixpoint digits (s : string) (acc : Z) : option Z :=
  match s with
  | EmptyString => Some acc
  | String c s' =>
      match digit_of c with
      | Some d => digits s' (10 * acc + d)
      | None => None
      end
  end.

Definition unsigned (s : string) : option Z :=
  match s with
  | EmptyString => None
  | _ => digits s 0
  end.

(** [int(s)] on a string: [None] stands for the [ValueError] that Python
    raises on anything but optional blanks, an optional sign and decimal
    digits. *)
Definition int (s : string) : option Z :=
  match strip s with
  | String "+"%char r => unsigned r
  | String "-"%char r => option_map Z.opp (unsigned r)
  | r => unsigned r
  end.

(** [str(n)] / ['%s' % n] for an integer. *)
Definition str_Z (n : Z) : string :=
  NilZero.string_of_int (Z.to_int n).

Fixpoint zeros (n : nat) : string :=
  match n with
  | O => EmptyString
  | S n' => String "0"%char (zeros n')
  end.

(** ['%0.4d' % n]: a precision of 4 gives at least four digits, padded
    with zeros on the left, after the sign. *)
Definition fmt_04d (n : Z) : string :=
  let ds := NilZero.string_of_uint (N.to_uint (Z.abs_N n)) in
  let padded := zeros (4 - String.length ds) ++ ds in
  if n <? 0 then String "-"%char padded else padded.

(** Insertion of an element into a Python [set], kept here as a list
    without duplicates (the iteration order of a set carries no meaning). *)
Definition set_add (x : string) (s : list string) : list string :=
  if in_ x s then s else s ++ [x].

End Py.

(** ** Enumerated column types *)

(** [Enum([u'security', u'bugfix', u'enhancement', u'newpackage', u'obsolete'])] *)
Inductive UpdateType := Security | Bugfix | Enhancement | Newpackage | TObsolete.

(** [Enum([u'pending', u'testing', u'stable', u'obsolete', u'unpushed'])] *)
Inductive Status := SPending | STesting | SStable | SObsolete | SUnpushed.

(** [Enum([u'testing', u'stable', u'obsolete', None])]: the [None] member is
    the [None] of [option Request]. *)
Inductive Request := RTesting | RStable | RObsolete.

Definition type_name (t : UpdateType) : string :=
  match t with
  | Security => "security"
  | Bugfix => "bugfix"
  | Enhancement => "enhancement"
  | Newpackage => "newpackage"
  | TObsolete => "obsolete"
  end.

Definition status_name (s : Status) : string :=
  match s with
  | SPending => "pending"
  | STesting => "testing"
  | SStable => "stable"
  | SObsolete => "obsolete"
  | SUnpushed => "unpushed"
  end.

Definition request_name (r : Request) : string :=
  match r with
  | RTesting => "testing"
  | RStable => "stable"
  | RObsolete => "obsolete"
  end.

(** The value stored by [self.request = action] when [action] is a string. *)
Definition request_of_name (s : string) : option Request :=
  if (s =? "testing")%string then Some RTesting
  else if (s =? "stable")%string then Some RStable
  else if (s =? "obsolete")%string then Some RObsolete
  else None.

(** ['%s' % v] for a nullable enumerated value. *)
Definition str_opt {A} (name : A -> string) (v : option A) : string :=
  match v with
  | Some a => name a
  | None => "None"
  end.

(** [action == self.request]: a string is never equal to [None]. *)
Definition eq_request (action : string) (r : option Request) : bool :=
  match r with
  | Some r => (action =? request_name r)%string
  | None => false
  end.

(** Timestamps ([DateTime] columns) are opaque instants. *)
Definition datetime := Z.

(** ** The mapped classes *)

(** Surrogate primary keys and foreign-key columns are not kept: a relation
    is the related record itself (or the list of them), as the attribute
    reads in Python. *)

Module Release.
Record t := mk {
  name : string;
  long_name : string;
  version : option Z;
  id_prefix : string;
  dist_tag : string;
  stable_tag : string;
  testing_tag : string;
  candidate_tag : string;
  locked : bool
}.
End Release.

Module Package.
Record t := mk {
  name : string;
  committers : option (list string);
  stable_karma : option Z;
  unstable_karma : option Z
}.
End Package.

Module Build.
Record t := mk {
  nvr : string;
  inherited : bool;
  package : Package.t;
  release : Release.t
}.
End Build.

Module Comment.
Record t := mk {
  author : string;
  karma : Z;
  text : string;
  anonymous : bool
}.
End Comment.

(** [cve_id] is unique: it identifies the CVE object. *)
Module CVE.
Record t := mk {
  cve_id : string
}.
Definition eqb (a b : t) : bool := (cve_id a =? cve_id b)%string.
End CVE.

(** A bug of Red Hat Bugzilla, which has a number: [update_bugs] looks
    bugs up and creates them by [bug_id].  A row that stands for a bug of
    another tracker ([bug_id] null, located by [url]) is not represented. *)
Module Bug.
Record t := mk {
  bug_id : Z;
  title : string;
  security : bool;
  url : option string;
  parent : bool
}.
End Bug.

Module Update.

(** The columns and relations that the class body of [Update] declares.
    The column [date_modified] is not kept: the database writes it at every
    UPDATE of the row ([onupdate=datetime.now]), no method reads or assigns
    it. *)
Record t := mk {
  type_ : option UpdateType;
  status : Status;
  request : option Request;
  pushed : bool;
  submitter : string;
  karma : Z;
  notes : option string;
  close_bugs : bool;
  security_approved : bool;
  releng_approved : bool;
  qa_approved : bool;
  date_submitted : option datetime;
  date_approved : option datetime;
  date_pushed : option datetime;
  security_approval_date : option datetime;
  qa_approval_date : option datetime;
  releng_approval_date : option datetime;
  alias : option string;
  release : Release.t;
  comments : list Comment.t;
  builds : list Build.t;
  bugs : list Bug.t;
  cves : list CVE.t
}.

(** Attribute assignment, [self.<field> = v]. *)
Definition with_status (v : Status) (u : t) : t :=
  mk (type_ u) v (request u) (pushed u) (submitter u) (karma u) (notes u)
    (close_bugs u) (security_approved u) (releng_approved u) (qa_approved u)
    (date_submitted u) (date_approved u) (date_pushed u)
    (security_approval_date u) (qa_approval_date u) (releng_approval_date u)
    (alias u) (release u) (comments u) (builds u) (bugs u) (cves u).

Definition with_request (v : option Request) (u : t) : t :=
  mk (type_ u) (status u) v (pushed u) (submitter u) (karma u) (notes u)
    (close_bugs u) (security_approved u) (releng_approved u) (qa_approved u)
    (date_submitted u) (date_approved u) (date_pushed u)
    (security_approval_date u) (qa_approval_date u) (releng_approval_date u)
    (alias u) (release u) (comments u) (builds u) (bugs u) (cves u).

Definition with_pushed (v : bool) (u : t) : t :=
  mk (type_ u) (status u) (request u) v (submitter u) (karma u) (notes u)
    (close_bugs u) (security_approved u) (releng_approved u) (qa_approved u)
    (date_submitted u) (date_approved u) (date_pushed u)
    (security_approval_date u) (qa_approval_date u) (releng_approval_date u)
    (alias u) (release u) (comments u) (builds u) (bugs u) (cves u).

Definition with_karma (v : Z) (u : t) : t :=
  mk (type_ u) (status u) (request u) (pushed u) (submitter u) v (notes u)
    (close_bugs u) (security_approved u) (releng_approved u) (qa_approved u)
    (date_submitted u) (date_approved u) (date_pushed u)
    (security_approval_date u) (qa_approval_date u) (releng_approval_date u)
    (alias u) (release u) (comments u) (builds u) (bugs u) (cves u).

Definition with_date_pushed (v : option datetime) (u : t) : t :=
  mk (type_ u) (status u) (request u) (pushed u) (submitter u) (karma u)
    (notes u) (close_bugs u) (security_approved u) (releng_approved u)
    (qa_approved u) (date_submitted u) (date_approved u) v
    (security_approval_date u) (qa_approval_date u) (releng_approval_date u)
    (alias u) (release u) (comments u) (builds u) (bugs u) (cves u).

Definition with_alias (v : option string) (u : t) : t :=
  mk (type_ u) (status u) (request u) (pushed u) (submitter u) (karma u)
    (notes u) (close_bugs u) (security_approved u) (releng_approved u)
    (qa_approved u) (date_submitted u) (date_approved u) (date_pushed u)
    (security_approval_date u) (qa_approval_date u) (releng_approval_date u) v
    (release u) (comments u) (builds u) (bugs u) (cves u).

Definition with_comments (v : list Comment.t) (u : t) : t :=
  mk (type_ u) (status u) (request u) (pushed u) (submitter u) (karma u)
    (notes u) (close_bugs u) (security_approved u) (releng_approved u)
    (qa_approved u) (date_submitted u) (date_approved u) (date_pushed u)
    (security_approval_date u) (qa_approval_date u) (releng_approval_date u)
    (alias u) (release u) v (builds u) (bugs u) (cves u).

Definition with_bugs (v : list Bug.t) (u : t) : t :=
  mk (type_ u) (status u) (request u) (pushed u) (submitter u) (karma u)
    (notes u) (close_bugs u) (security_approved u) (releng_approved u)
    (qa_approved u) (date_submitted u) (date_approved u) (date_pushed u)
    (security_approval_date u) (qa_approval_date u) (releng_approval_date u)
    (alias u) (release u) (comments u) (builds u) v (cves u).

Definition with_cves (v : list CVE.t) (u : t) : t :=
  mk (type_ u) (status u) (request u) (pushed u) (submitter u) (karma u)
    (notes u) (close_bugs u) (security_approved u) (releng_approved u)
    (qa_approved u) (date_submitted u) (date_approved u) (date_pushed u)
    (security_approval_date u) (qa_approval_date u) (releng_approval_date u)
    (alias u) (release u) (comments u) (builds u) (bugs u) v.

(** A [Column(..., default=d)]: the default is taken at the INSERT when
    the attribute holds no value, whether the constructor was given nothing
    or [None] for it. *)
Definition column {V} (default : V) (given : option V) : V :=
  match given with
  | Some v => v
  | None => default
  end.

(** The keyword arguments of [Update(...)], one for each column or
    relation that the methods below read: [None] where the caller passes
    nothing.  For the nullable column [request], [Some None] is an explicit
    [request=None]. *)
Record kwargs := mk_kwargs {
  k_type_ : option UpdateType;
  k_status : option Status;
  k_request : option (option Request);
  k_pushed : option bool;
  k_submitter : string;
  k_karma : option Z;
  k_notes : option string;
  k_close_bugs : option bool;
  k_security_approved : option bool;
  k_releng_approved : option bool;
  k_qa_approved : option bool;
  k_date_submitted : option datetime;
  k_alias : option string;
  k_release : Release.t;
  k_builds : list Build.t;
  k_bugs : list Bug.t;
  k_cves : list CVE.t
}.

(** [Update(...)] followed by the flush that inserts the row: every column
    default of the class body is applied where the attribute is [None];
    [now] is [datetime.now()].  (Before that flush the object holds [None]
    in every column that was not given.) *)
Definition create (now : datetime) (k : kwargs) : t :=
  mk (k_type_ k)
     (column SPending (k_status k))
     (column (Some RTesting)
        (match k_request k with Some (Some r) => Some (Some r) | _ => None end))
     (column false (k_pushed k))
     (k_submitter k)
     (column 0 (k_karma k))
     (k_notes k)
     (column true (k_close_bugs k))
     (column false (k_security_approved k))
     (column false (k_releng_approved k))
     (column false (k_qa_approved k))
     (Some (column now (k_date_submitted k)))
     None None None None None
     (k_alias k)
     (k_release k)
     []
     (k_builds k) (k_bugs k) (k_cves k).

(** The [title] property. *)
Definition title (u : t) : string :=
  Py.join ", " (map (fun build => Package.name (Build.package build)) (builds u))
  ++ " " ++ str_opt type_name (type_ u) ++ " update".

End Update.

(** ** Exceptions, the state and the environment *)

(** [InvalidRequest] is the exception of the model; [ValueError],
    [AttributeError] and [RuntimeError] are raised by the Python runtime
    ([int] and the unpacking of a sequence, the read of an attribute that
    the object does not have, the recursion depth). *)
Inductive exn :=
| InvalidRequest (msg : string)
| ValueError
| AttributeError (name : string)
| RuntimeError.

Inductive outcome (A : Type) :=
| Return (a : A)
| Raise (e : exn).
Arguments Return {A} a.
Arguments Raise {A} e.

(** What the model hands to its collaborators. *)
Inductive Mail :=
| Send (people : list string) (template : string)
| SendAdmin (template : string).

Inductive KojiCall :=
| UntagBuild (tag nvr : string)
| MoveBuild (fromtag totag nvr : string).

(** A build as koji reports it (a dictionary in Python). *)
Record KojiBuild := mk_KojiBuild {
  kb_name : string;
  kb_version : string;
  kb_release : string;
  kb_epoch : option Z;
  kb_nvr : string
}.

(** The label that [rpm.labelCompare] takes: (epoch, version, release). *)
Definition EVR : Type := string * string * string.

(** The state that a method call can change: the update it is called on,
    the other rows of table [updates], the rows of table [cves], and the
    calls made so far to the mail queue, to the flash log and to koji, in
    order.  The three gateways are outside [model.py]; here they answer
    every call, so that a method that returns below is a method that
    returns whenever its gateways do. *)
Record World := mk_World {
  self : Update.t;
  others : list Update.t;
  cve_table : list CVE.t;
  outbox : list Mail;
  flashed : list string;
  koji_calls : list KojiCall
}.

(** What a method call reads from outside [model.py]: the identity layer,
    the clock, koji's queries, [rpm.labelCompare], [bodhi.util.build_evr]
    and the collation that [order_by] sorts aliases with. *)
Record Env := mk_Env {
  user_name : string;
  authorized_user : Update.t -> bool;
  localtime_year : Z;
  utcnow : datetime;
  getBuild : string -> KojiBuild;
  listTagged : string -> string -> list KojiBuild;
  labelCompare : EVR -> EVR -> Z;
  build_evr : KojiBuild -> EVR;
  alias_leb : string -> string -> bool
}.

(** A computation either returns or raises, and leaves a state behind in
    both cases, as a Python method does. *)
Definition M (A : Type) : Type := World -> outcome A * World.

Definition ret {A} (a : A) : M A := fun w => (Return a, w).

Definition bind {A B} (m : M A) (k : A -> M B) : M B :=
  fun w =>
    match m w with
    | (Return a, w') => k a w'
    | (Raise e, w') => (Raise e, w')
    end.

Definition raise {A} (e : exn) : M A := fun w => (Raise e, w).

(** [self.<name>] for a name that class [Update] does not have: neither a
    column, a relation or a property of the class body, nor an attribute
    that a method assigns.  Python raises [AttributeError]. *)
Definition undeclared {A} (name : string) : M A := raise (AttributeError name).

Declare Scope py_scope.
Delimit Scope py_scope with py.
Notation "x <- m ;; k" := (bind m (fun x => k))
  (at level 61, m at next level, right associativity) : py_scope.
Notation "m ;; k" := (bind m (fun _ => k))
  (at level 61, right associativity) : py_scope.
Local Open Scope py_scope.

Definition get_world : M World := fun w => (Return w, w).

Definition get_self : M Update.t := fun w => (Return (self w), w).

Definition modify_self (f : Update.t -> Update.t) : M unit :=
  fun w =>
    (Return tt,
     mk_World (f (self w)) (others w) (cve_table w) (outbox w) (flashed w)
       (koji_calls w)).

Definition get_cve_table : M (list CVE.t) := fun w => (Return (cve_table w), w).

Definition put_cve_table (rows : list CVE.t) : M unit :=
  fun w =>
    (Return tt,
     mk_World (self w) (others w) rows (outbox w) (flashed w) (koji_calls w)).

Definition mail (m : Mail) : M unit :=
  fun w =>
    (Return tt,
     mk_World (self w) (others w) (cve_table w) (outbox w ++ [m]) (flashed w)
       (koji_calls w)).

Definition flash_log (msg : string) : M unit :=
  fun w =>
    (Return tt,
     mk_World (self w) (others w) (cve_table w) (outbox w) (flashed w ++ [msg])
       (koji_calls w)).

Definition koji (c : KojiCall) : M unit :=
  fun w =>
    (Return tt,
     mk_World (self w) (others w) (cve_table w) (outbox w) (flashed w)
       (koji_calls w ++ [c])).

(** [session.save] and [session.flush]: the state above is the session,
    queries read it as it stands; what a flush writes besides ([id],
    [date_modified]) is not part of the state. *)
Definition session_save : M unit := ret tt.
Definition session_flush : M unit := ret tt.

(** [if c: body]. *)
Definition when (c : bool) (body : M unit) : M unit :=
  if c then body else ret tt.

(** [for x in l: body]. *)
Fixpoint for_ {A} (l : list A) (body : A -> M unit) : M unit :=
  match l with
  | [] => ret tt
  | x :: l' => body x ;; for_ l' body
  end.

(** ** The methods of [Update] *)

(** [Update.get_build_tag] *)
Definition get_build_tag (u : Update.t) : string :=
  let tag := Release.dist_tag (Update.release u) ++ "-updates" in
  if Py.in_ (status_name (Update.status u)) ["pending"; "obsolete"] then
    tag ++ "-candidate"
  else if (status_name (Update.status u) =? "testing")%string then
    tag ++ "-testing"
  else tag.

(** [Update.get_maintainers] *)
Definition get_maintainers (u : Update.t) : list string :=
  fold_left
    (fun people build =>
       match Package.committers (Build.package build) with
       | Some committers =>
           fold_left (fun people committer => Py.set_add committer people)
             committers people
       | None => people
       end)
    (Update.builds u) [].

(** [cve.updates], the back reference of [Update.cves]: the updates that
    hold [cve] in their [cves]. *)
Definition cve_updates (w : World) (cve : CVE.t) : list Update.t :=
  filter (fun u => existsb (CVE.eqb cve) (Update.cves u)) (self w :: others w).

(** [CVE.query.filter_by(cve_id=cve_id).one()]: [None] when [one] raises,
    that is unless exactly one row matches. *)
Definition cve_query_one (rows : list CVE.t) (cve_id : string) : option CVE.t :=
  match filter (fun c => (CVE.cve_id c =? cve_id)%string) rows with
  | [c] => Some c
  | _ => None
  end.

(** [session.delete(cve)] *)
Definition session_delete (cve : CVE.t) : M unit :=
  rows <- get_cve_table ;;
  put_cve_table (filter (fun c => negb (CVE.eqb c cve)) rows).

(** The body of the first loop of [update_cves]. *)
Definition destroy_stray (cves : list string) (cve : CVE.t) : M unit :=
  w <- get_world ;;
  when (negb (Py.in_ (CVE.cve_id cve) cves)
        && (List.length (cve_updates w cve) =? 0)%nat)
    (session_delete cve ;; session_flush).

(** The body of the second loop of [update_cves]; the bare [except] takes
    every failure of the query to the creation of a new CVE. *)
Definition attach_cve (cve_id : string) : M unit :=
  rows <- get_cve_table ;;
  u <- get_self ;;
  match cve_query_one rows cve_id with
  | Some cve =>
      when (negb (existsb (CVE.eqb cve) (Update.cves u)))
        (modify_self (Update.with_cves (Update.cves u ++ [cve])))
  | None =>
      let cve := CVE.mk cve_id in
      session_save ;;
      put_cve_table (rows ++ [cve]) ;;
      modify_self (Update.with_cves (Update.cves u ++ [cve]))
  end.

(** [Update.update_cves] *)
Definition update_cves (cves : list string) : M unit :=
  u <- get_self ;;
  for_ (Update.cves u) (destroy_stray cves) ;;
  for_ cves attach_cve ;;
  session_flush.

(** [Update.untag] *)
Definition untag : M unit :=
  u <- get_self ;;
  let tag := get_build_tag u in
  for_ (Update.builds u) (fun build => koji (UntagBuild tag (Build.nvr build))) ;;
  modify_self (Update.with_pushed false) ;;
  session_flush.

(** [Update.unpush] *)
Definition unpush : M unit :=
  u <- get_self ;;
  let newtag := Release.dist_tag (Update.release u) ++ "-updates-candidate" in
  let curtag := get_build_tag u in
  if Py.endswith curtag "-updates-candidate" then ret tt
  else
    for_ (Update.builds u) (fun build =>
      if Build.inherited build then koji (UntagBuild curtag (Build.nvr build))
      else koji (MoveBuild curtag newtag (Build.nvr build))) ;;
    modify_self (Update.with_pushed false) ;;
    modify_self (Update.with_status SPending) ;;
    mail (SendAdmin "unpushed") ;;
    session_flush.

(** The truth value of an optional string argument: [None] and the empty
    string are false. *)
Definition truthy (s : option string) : bool :=
  match s with
  | Some s => negb (s =? "")%string
  | None => false
  end.

(** The signature of [Update.comment]: text, karma, author, anonymous. *)
Definition comment_method : Type := string -> Z -> option string -> bool -> M unit.

(** [Update.obsolete], over the [comment] method that it calls. *)
Definition obsolete_with (comment : comment_method) (newer : option string) : M unit :=
  untag ;;
  modify_self (Update.with_status SObsolete) ;;
  modify_self (Update.with_request None) ;;
  (if truthy newer then
     comment ("This update has been obsoleted by " ++ str_opt id newer) 0
       (Some "bodhi") false
   else comment "This update has been obsoleted" 0 (Some "bodhi") false) ;;
  session_flush.

(** The recipients of the notice about a new comment. *)
Definition comment_people (u : Update.t) : list string :=
  let people := fold_left (fun people person => Py.set_add person people)
                  (get_maintainers u) [] in
  fold_left
    (fun people c =>
       if Comment.anonymous c || (Comment.author c =? "bodhi")%string then people
       else Py.set_add (Comment.author c) people)
    (Update.comments u) people.

Section Methods.

Variable env : Env.

(** [Update.query.filter(Update.alias != None).order_by(Update.alias)] *)
Fixpoint insert_by_alias (u : Update.t) (l : list Update.t) : list Update.t :=
  match l with
  | [] => [u]
  | v :: l' =>
      if alias_leb env (str_opt id (Update.alias u)) (str_opt id (Update.alias v))
      then u :: l
      else v :: insert_by_alias u l'
  end.

Definition query_aliased (w : World) : list Update.t :=
  fold_right insert_by_alias []
    (filter (fun u => match Update.alias u with Some _ => true | None => false end)
       (self w :: others w)).

(** [update[-1]]: [None] stands for the [IndexError] of an empty result. *)
Definition last_row (l : list Update.t) : option Update.t :=
  match rev l with
  | u :: _ => Some u
  | [] => None
  end.

(** The [try] block of [assign_id]: [IndexError] and [AttributeError] give
    1, any other exception leaves the method. *)
Definition next_id (w : World) : outcome Z :=
  match last_row (query_aliased w) with
  | None => Return 1
  | Some u =>
      match Update.alias u with
      | None => Return 1
      | Some alias =>
          match Py.split "-" alias with
          | [prefix; year; id] =>
              match Py.int year with
              | None => Raise ValueError
              | Some y =>
                  if negb (y =? localtime_year env) then Return (0 + 1)
                  else match Py.int id with
                       | None => Raise ValueError
                       | Some n => Return (n + 1)
                       end
              end
          | _ => Raise ValueError
          end
      end
  end.

(** [Update.assign_id] *)
Definition assign_id : M unit :=
  u <- get_self ;;
  if match Update.alias u with
     | Some a => negb (a =? "None")%string
     | None => false
     end
  then ret tt
  else
    id <- (fun w => (next_id w, w)) ;;
    modify_self
      (Update.with_alias
         (Some (Release.id_prefix (Update.release u) ++ "-"
                ++ Py.str_Z (localtime_year env) ++ "-" ++ Py.fmt_04d id))).

(** [Update.request_complete] *)
Definition request_complete : M unit :=
  u <- get_self ;;
  (if eq_request "testing" (Update.request u) then
     modify_self (Update.with_pushed true) ;;
     modify_self (Update.with_date_pushed (Some (utcnow env))) ;;
     modify_self (Update.with_status STesting) ;;
     assign_id
   else if eq_request "obsolete" (Update.request u) then
     modify_self (Update.with_pushed false) ;;
     modify_self (Update.with_status SObsolete)
   else if eq_request "stable" (Update.request u) then
     modify_self (Update.with_pushed true) ;;
     modify_self (Update.with_date_pushed (Some (utcnow env))) ;;
     modify_self (Update.with_status SStable) ;;
     assign_id
   else ret tt) ;;
  modify_self (Update.with_request None).

(** [not author] for the optional [author] argument. *)
Definition effective_author (author : option string) : string :=
  if truthy author then str_opt id author else user_name env.

(** [Update.comment].  [comment] and [obsolete] call each other; [fuel]
    bounds the depth of these calls, and [RuntimeError] is what Python
    raises when the depth is exhausted.  The thresholds [stable_karma] and
    [unstable_karma] are columns of [Package]; the method reads them on
    [self], an [Update], which has no attribute of these names. *)
Fixpoint comment (fuel : nat) (text : string) (karma : Z)
  (author : option string) (anonymous : bool) : M unit :=
  match fuel with
  | O => raise RuntimeError
  | S fuel' =>
    let author := effective_author author in
    u <- get_self ;;
    when (negb anonymous && negb (karma =? 0)
          && negb (existsb (fun c => (Comment.author c =? author)%string
                                     && (Comment.karma c =? karma))
                     (Update.comments u)))
      (let mycomments :=
         map Comment.karma
           (filter (fun c => (Comment.author c =? author)%string)
              (Update.comments u)) in
       (if (karma =? 1) && Py.in_Z (-1) mycomments then
          modify_self (Update.with_karma (Update.karma u + 2))
        else if (karma =? -1) && Py.in_Z 1 mycomments then
          modify_self (Update.with_karma (Update.karma u - 2))
        else modify_self (Update.with_karma (Update.karma u + karma))) ;;
       stable_karma <- undeclared "stable_karma" ;;
       u <- get_self ;;
       when (negb (stable_karma =? 0) && (stable_karma =? Update.karma u))
         (modify_self (Update.with_request (Some RStable)) ;;
          modify_self (Update.with_pushed false) ;;
          modify_self (Update.with_date_pushed None) ;;
          u <- get_self ;;
          mail (Send (get_maintainers u) "stablekarma") ;;
          mail (SendAdmin "stablekarma")) ;;
       u <- get_self ;;
       unstable <-
         (if (status_name (Update.status u) =? "testing")%string then
            unstable_karma <- undeclared "unstable_karma" ;;
            ret (negb (unstable_karma =? 0)
                 && (Update.karma u =? unstable_karma))
          else ret false) ;;
       when unstable
         (obsolete_with (comment fuel') None ;;
          u <- get_self ;;
          mail (Send (get_maintainers u) "unstable"))) ;;
    let c := Comment.mk author karma text anonymous in
    session_save ;;
    u <- get_self ;;
    modify_self (Update.with_comments (Update.comments u ++ [c])) ;;
    session_flush ;;
    u <- get_self ;;
    mail (Send (comment_people u) "comment")
  end.

(** [Update.obsolete] *)
Definition obsolete (fuel : nat) (newer : option string) : M unit :=
  obsolete_with (comment fuel) newer.

(** [mybuild] in [set_request]: what koji knows of the build, its [nvr]
    rebuilt from name, version and release. *)
Definition my_build (build : Build.t) : KojiBuild :=
  let mybuild := getBuild env (Build.nvr build) in
  mk_KojiBuild (kb_name mybuild) (kb_version mybuild) (kb_release mybuild)
    (kb_epoch mybuild)
    (kb_name mybuild ++ "-" ++ kb_version mybuild ++ "-" ++ kb_release mybuild).

(** [rpm.labelCompare(build_evr(mybuild), build_evr(oldBuild)) < 0] *)
Definition older_than (mybuild oldBuild : KojiBuild) : bool :=
  labelCompare env (build_evr env mybuild) (build_evr env oldBuild) <? 0.

Definition broken_path_msg (mybuild oldBuild : KojiBuild) : string :=
  "Broken update path: " ++ kb_nvr oldBuild
  ++ " is already released, and is newer than " ++ kb_nvr mybuild.

(** The builds that koji lists for the package of [build] under the
    release's "-updates" tag ([latest=True]). *)
Definition tagged_builds (u : Update.t) (build : Build.t) : list KojiBuild :=
  listTagged env (Release.dist_tag (Update.release u) ++ "-updates")
    (Package.name (Build.package build)).

(** The check of the update path in [set_request]. *)
Definition check_update_path (u : Update.t) : M unit :=
  for_ (Update.builds u) (fun build =>
    let mybuild := my_build build in
    let kojiBuilds := tagged_builds u build in
    for_ kojiBuilds (fun oldBuild =>
      if older_than mybuild oldBuild then
        raise (InvalidRequest (broken_path_msg mybuild oldBuild))
      else ret tt)).

(** [Update.set_request].  The third [elif] reads [self.type] and
    [self.approved]; the class has the column [type_] and the columns
    [security_approved], [releng_approved] and [qa_approved], and no
    attribute named [type] or [approved]. *)
Definition set_request (fuel : nat) (action : string) (pathcheck : bool) : M unit :=
  u <- get_self ;;
  if negb (authorized_user env u) then
    raise (InvalidRequest ("Unauthorized to perform action on " ++ Update.title u))
  else if negb (Py.in_ action ["testing"; "stable"; "obsolete"; "unpush"]) then
    raise (InvalidRequest ("Unknown request: " ++ action))
  else if (action =? status_name (Update.status u))%string then
    raise (InvalidRequest (Update.title u ++ " already " ++ action))
  else if eq_request action (Update.request u) then
    raise (InvalidRequest
             (Update.title u ++ " has already been submitted to "
              ++ str_opt request_name (Update.request u)))
  else if (action =? "unpush")%string then
    unpush ;;
    comment fuel "This update has been unpushed" 0 (Some (user_name env)) false ;;
    flash_log (Update.title u ++ " has been unpushed")
  else if (action =? "obsolete")%string then
    obsolete fuel None ;;
    flash_log (Update.title u ++ " has been obsoleted")
  else
    type <- undeclared "type" ;;
    awaiting <-
      (if (type =? "security")%string then
         approved <- undeclared "approved" ;;
         ret (negb approved)
       else ret false) ;;
    if awaiting then
      flash_log (Update.title u ++ " is awaiting approval of the Security Team") ;;
      modify_self (Update.with_request (request_of_name action))
    else
      when ((action =? "stable")%string && pathcheck) (check_update_path u) ;;
      modify_self (Update.with_request (request_of_name action)) ;;
      modify_self (Update.with_pushed false) ;;
      modify_self (Update.with_date_pushed None) ;;
      flash_log (Update.title u ++ " has been submitted for " ++ action) ;;
      comment fuel ("This update has been submitted for " ++ action) 0
        (Some (user_name env)) false ;;
      mail (SendAdmin action).

End Methods.

(** ** Concrete instances

    A Fedora 9 release, the kernel package with one build, and an
    environment whose label comparison orders the (epoch, version,
    release) triples field by field. *)

Definition ex_cmp (a b : string) : Z :=
  match String.compare a b with
  | Lt => -1
  | Eq => 0
  | Gt => 1
  end.

Definition ex_labelCompare (a b : EVR) : Z :=
  let '(e1, v1, r1) := a in
  let '(e2, v2, r2) := b in
  if negb (ex_cmp e1 e2 =? 0) then ex_cmp e1 e2
  else if negb (ex_cmp v1 v2 =? 0) then ex_cmp v1 v2
  else ex_cmp r1 r2.

Definition ex_build_evr (b : KojiBuild) : EVR :=
  (match kb_epoch b with Some e => Py.str_Z e | None => "0" end,
   kb_version b, kb_release b).

Definition ex_env : Env :=
  mk_Env "lmacken" (fun _ => true) 2009 1234567890
    (fun nvr => mk_KojiBuild "kernel" "2.6.0" "1.fc9" None nvr)
    (fun tag package =>
       if ((tag =? "dist-f9-updates") && (package =? "kernel"))%string
       then [mk_KojiBuild "kernel" "2.6.5" "1.fc9" None "kernel-2.6.5-1.fc9"]
       else [])
    ex_labelCompare ex_build_evr String.leb.

Definition ex_f9 : Release.t :=
  Release.mk "F9" "Fedora 9" (Some 9) "FEDORA" "dist-f9" "dist-f9-updates"
    "dist-f9-updates-testing" "dist-f9-updates-candidate" false.

Definition ex_kernel : Package.t :=
  Package.mk "kernel" (Some ["lmacken"; "davej"]) None None.

Definition ex_build : Build.t :=
  Build.mk "kernel-2.6.0-1.fc9" false ex_kernel ex_f9.

(** The keyword arguments of a bug-fix update of that build, nothing given
    for the columns that have a default. *)
Definition ex_kwargs : Update.kwargs :=
  Update.mk_kwargs (Some Bugfix) None None None "lmacken" None None None None
    None None None None ex_f9 [ex_build] [] [].

Definition ex_update : Update.t := Update.create 1234000000 ex_kwargs.

Definition ex_world (u : Update.t) : World := mk_World u [] [] [] [] [].

(** An EPEL release, whose [id_prefix] holds a dash, and an update of it. *)
Definition ex_epel : Release.t :=
  Release.mk "EL-5" "Fedora EPEL 5" (Some 5) "FEDORA-EPEL" "dist-5E-epel"
    "dist-5E-epel" "dist-5E-epel-testing" "dist-5E-epel-testing-candidate" false.

Definition ex_epel_update : Update.t :=
  Update.create 1234000000
    (Update.mk_kwargs (Some Bugfix) None None None "lmacken" None None None
       None None None None None ex_epel
       [Build.mk "kernel-2.6.0-1.el5" false ex_kernel ex_epel] [] []).

(** The first EPEL update once [request_complete] ran on it in a database
    that holds no other update. *)
Definition ex_epel_pushed : Update.t :=
  self (snd (request_complete ex_env (ex_world ex_epel_update))).

(** A second EPEL update, the first one being in the database. *)
Definition ex_epel_world : World :=
  mk_World ex_epel_update [ex_epel_pushed] [] [] [] [].

(** An update whose alias is the text "None", next to an update of another
    release that has an alias. *)
Definition ex_rhel : Release.t :=
  Release.mk "EL-6" "Enterprise Linux 6" (Some 6) "RHEL" "dist-6E" "dist-6E"
    "dist-6E-testing" "dist-6E-testing-candidate" false.

Definition ex_rhel_update : Update.t :=
  Update.with_request None
    (Update.create 1234000000
       (Update.mk_kwargs (Some Bugfix) (Some STesting) None (Some true)
          "lmacken" None None None None None None None (Some "RHEL-2009-0007")
          ex_rhel [Build.mk "kernel-2.6.0-1.el6" false ex_kernel ex_rhel] []
          [])).

Definition ex_none_world : World :=
  mk_World (Update.with_alias (Some "None") ex_update) [ex_rhel_update] [] []
    [] [].

(** An update that holds CVE-2008-0001, known to the database, and that no
    other update refers to. *)
Definition ex_cve_world : World :=
  mk_World (Update.with_cves [CVE.mk "CVE-2008-0001"] ex_update) []
    [CVE.mk "CVE-2008-0001"] [] [] [].

(** The kernel update on which Bob has voted +1 and then -1: his two
    comments, and the karma total -1 that the two votes add up to. *)
Definition ex_after_minus : World :=
  ex_world
    (Update.with_karma (-1)
       (Update.with_comments
          [Comment.mk "bob" 1 "works for me" false;
           Comment.mk "bob" (-1) "it broke my system" false] ex_update)).

(** A kernel package whose thresholds are 3 and -3, and an update of a
    build of it on which Alice and Carol have voted +1: the total is 2. *)
Definition ex_rated_kernel : Package.t :=
  Package.mk "kernel" (Some ["lmacken"; "davej"]) (Some 3) (Some (-3)).

Definition ex_two_votes : World :=
  ex_world
    (Update.with_karma 2
       (Update.with_comments
          [Comment.mk "alice" 1 "fine" false; Comment.mk "carol" 1 "fine" false]
          (Update.create 1234000000
             (Update.mk_kwargs (Some Bugfix) None None None "lmacken" None None
                None None None None None None ex_f9
                [Build.mk "kernel-2.6.0-1.fc9" false ex_rated_kernel ex_f9] []
                [])))).

(** The kernel update without a request. *)
Definition ex_idle : World := ex_world (Update.with_request None ex_update).

(** ** Vocabulary of the statements *)

(** [runs m w u'] says that [m], started in [w], returns (it does not
    raise) and leaves [u'] as [self]. *)
Definition runs (m : M unit) (w : World) (u' : Update.t) : Prop :=
  exists w', m w = (Return tt, w') /\ self w' = u'.

(** What [update_cves] leaves behind: the CVEs held by [self] with new
    ones after them, every row of the table, and a CVE held for every id of
    the argument. *)
Definition attached (ids : list string) (w w' : World) : Prop :=
  (exists extra, Update.cves (self w') = (Update.cves (self w) ++ extra)%list)
  /\ (forall c, In c (cve_table w) -> In c (cve_table w'))
  /\ (forall id, In id ids ->
        exists c, In c (Update.cves (self w')) /\ CVE.cve_id c = id).

(** The guard of the karma block of [comment]: the comment is not
    anonymous, its karma is not zero, and no comment of the update has the
    same author and the same karma. *)
Definition karma_counts (a : string) (karma : Z) (anonymous : bool)
  (u : Update.t) : bool :=
  negb anonymous && negb (karma =? 0)
  && negb (existsb (fun c => (Comment.author c =? a)%string
                             && (Comment.karma c =? karma))
             (Update.comments u)).

(** [mycomments] in [comment]. *)
Definition karma_of (a : string) (u : Update.t) : list Z :=
  map Comment.karma
    (filter (fun c => (Comment.author c =? a)%string) (Update.comments u)).

(** The total that the karma block of [comment] stores. *)
Definition adjusted_karma (a : string) (karma : Z) (u : Update.t) : Z :=
  if (karma =? 1) && Py.in_Z (-1) (karma_of a u) then Update.karma u + 2
  else if (karma =? -1) && Py.in_Z 1 (karma_of a u) then Update.karma u - 2
  else Update.karma u + karma.

(** [self] after [self.comments.append(c)]. *)
Definition commented (c : Comment.t) (u : Update.t) : Update.t :=
  Update.with_comments (Update.comments u ++ [c]) u.

(** [self] after [obsolete]. *)
Definition obsoleted (newer : option string) (u : Update.t) : Update.t :=
  commented
    (Comment.mk "bodhi" 0
       (if truthy newer then "This update has been obsoleted by " ++ str_opt id newer
        else "This update has been obsoleted") false)
    (Update.with_request None
       (Update.with_status SObsolete (Update.with_pushed false u))).

(** Some comment of [u] has author [a] and karma [karma]. *)
Definition has_voted (u : Update.t) (a : string) (karma : Z) : Prop :=
  exists c,
    In c (Update.comments u) /\ Comment.author c = a /\ Comment.karma c = karma.

(** The guard of [assign_id]: the alias is neither null nor the text
    "None". *)
Definition alias_set (u : Update.t) : bool :=
  match Update.alias u with
  | Some a => negb (a =? "None")%string
  | None => false
  end.

(** The alias that [assign_id] builds for the sequence number [id]. *)
Definition new_alias (env : Env) (u : Update.t) (id : Z) : string :=
  Release.id_prefix (Update.release u) ++ "-"
  ++ Py.str_Z (localtime_year env) ++ "-" ++ Py.fmt_04d id.

(** The status that [request_complete] gives for a request. *)
Definition status_of_request (r : Request) : Status :=
  match r with
  | RTesting => STesting
  | RStable => SStable
  | RObsolete => SObsolete
  end.

(** The state in which [request_complete] calls [assign_id] for the
    request [r]. *)
Definition pushed_world (env : Env) (r : Request) (w : World) : World :=
  mk_World
    (Update.with_status (status_of_request r)
       (Update.with_date_pushed (Some (utcnow env))
          (Update.with_pushed true (self w))))
    (others w) (cve_table w) (outbox w) (flashed w) (koji_calls w).

(** ** More of [model.py]

    [get_title], [get_cvestring], [get_url], [status_comment],
    [update_bugs] and [Build.get_latest], over the records and the state
    above. *)

Module Os.

(** One round of [os.path.join] (posixpath): a component that starts with
    a slash replaces what was joined so far. *)
Definition join2 (path b : string) : string :=
  if String.prefix "/" b then b
  else if (path =? "")%string || Py.endswith path "/" then path ++ b
  else path ++ "/" ++ b.

(** [os.path.join(a, *p)] *)
Definition path_join (a : string) (p : list string) : string :=
  fold_left join2 p a.

End Os.

(** [Update.get_title] *)
Definition get_title (delim : string) (u : Update.t) : string :=
  Py.join delim (map Build.nvr (Update.builds u)).

(** [Update.get_cvestring] *)
Definition get_cvestring (u : Update.t) : string :=
  Py.join " " (map CVE.cve_id (Update.cves u)).

(** [Update.get_url] *)
Definition get_url (u : Update.t) : string :=
  Os.path_join "/"
    (if truthy (Update.alias u) then
       [Release.name (Update.release u); str_opt id (Update.alias u)]
     else [get_title " " u]).

(** [Update.status_comment] *)
Definition status_comment (env : Env) (fuel : nat) : M unit :=
  u <- get_self ;;
  if (status_name (Update.status u) =? "stable")%string then
    comment env fuel "This update has been pushed to stable" 0 (Some "bodhi") false
  else if (status_name (Update.status u) =? "testing")%string then
    comment env fuel "This update has been pushed to testing" 0 (Some "bodhi") false
  else if (status_name (Update.status u) =? "obsolete")%string then
    comment env fuel "This update has been obsoleted" 0 (Some "bodhi") false
  else ret tt.

(** *** [Build.get_latest] *)

(** [koji.getLatestBuilds(tag, package=...)] and [bodhi.util.get_nvr]
    (the name, version and release of an nvr, a tuple in Python). *)
Record Latest := mk_Latest {
  getLatestBuilds : string -> string -> list KojiBuild;
  get_nvr : string -> list string
}.

(** The truth value of a tuple. *)
Definition nonempty {A} (l : option (list A)) : bool :=
  match l with
  | Some (_ :: _) => true
  | _ => false
  end.

(** The inner loop of [get_latest]: [latest] is assigned at the first
    build that [rpm.labelCompare] puts above [evr], and the loop stops. *)
Definition first_above (env : Env) (lt : Latest) (evr : EVR)
  (builds : list KojiBuild) (latest : option (list string)) : option (list string) :=
  match find (fun build => labelCompare env evr (build_evr env build) <? 0) builds with
  | Some build => Some (get_nvr lt (kb_nvr build))
  | None => latest
  end.

(** The outer loop of [get_latest], which stops once [latest] is true. *)
Fixpoint latest_in_tags (env : Env) (lt : Latest) (evr : EVR) (package : string)
  (tags : list string) (latest : option (list string)) : option (list string) :=
  match tags with
  | [] => latest
  | tag :: tags' =>
      let latest := first_above env lt evr (getLatestBuilds lt tag package) latest in
      if nonempty latest then latest
      else latest_in_tags env lt evr package tags' latest
  end.

(** [Build.get_latest]: [None] is Python's [None]. *)
Definition get_latest (env : Env) (lt : Latest) (b : Build.t) : option string :=
  let evr := build_evr env (getBuild env (Build.nvr b)) in
  let latest :=
    latest_in_tags env lt evr (Package.name (Build.package b))
      [Release.stable_tag (Build.release b); Release.dist_tag (Build.release b)]
      None in
  if nonempty latest then Some (Py.join "-" (match latest with Some l => l | None => [] end))
  else None.

(** *** [Update.update_bugs] *)

(** What [update_bugs] reads from outside: whether [bodhi_email] is
    configured, bugzilla's [getbug] ([None] for an [xmlrpclib.Fault]) and
    the value of a [title] column that was never assigned. *)
Record BzBug := mk_BzBug {
  bz_bug_id : Z;
  bz_product : string;
  bz_short_desc : string;
  bz_keywords : string
}.

Record BzEnv := mk_BzEnv {
  bodhi_email : bool;
  getbug : Z -> option BzBug;
  null_title : string
}.

(** The state of [update_bugs]: the state above and the rows of table
    [bugs]. *)
Record BugWorld := mk_BugWorld {
  bw_world : World;
  bug_table : list Bug.t
}.

Inductive bug_outcome := Done | Fault.

(** [bug_id] is unique: it identifies the Bug object. *)
Definition bug_eqb (a b : Bug.t) : bool := Bug.bug_id a =? Bug.bug_id b.

Definition self_bugs (bw : BugWorld) : list Bug.t :=
  Update.bugs (self (bw_world bw)).

Definition set_self_bugs (v : list Bug.t) (bw : BugWorld) : BugWorld :=
  let w := bw_world bw in
  mk_BugWorld
    (mk_World (Update.with_bugs v (self w)) (others w) (cve_table w) (outbox w)
       (flashed w) (koji_calls w))
    (bug_table bw).

(** [l.remove(x)]: the first element equal to [x] goes. *)
Fixpoint list_remove (x : Bug.t) (l : list Bug.t) : list Bug.t :=
  match l with
  | [] => []
  | y :: l' => if bug_eqb y x then l' else y :: list_remove x l'
  end.

(** [bug.updates], the back reference of [Update.bugs]. *)
Definition bug_updates (bw : BugWorld) (bug : Bug.t) : list Update.t :=
  filter (fun u => existsb (bug_eqb bug) (Update.bugs u))
    (self (bw_world bw) :: others (bw_world bw)).

(** One round of the first loop of [update_bugs]. *)
Definition drop_bug (bugs : list Z) (bug : Bug.t) (bw : BugWorld) : BugWorld :=
  if negb (Py.in_Z (Bug.bug_id bug) bugs) then
    let bw := set_self_bugs (list_remove bug (self_bugs bw)) bw in
    if (List.length (bug_updates bw bug) =? 0)%nat then
      mk_BugWorld (bw_world bw)
        (filter (fun b => negb (bug_eqb b bug)) (bug_table bw))
    else bw
  else bw.

(** [for bug in self.bugs: ...] while the body removes from [self.bugs]:
    the iterator of a Python list keeps an index [i] and stops when [i]
    reaches the current length.  The list only shrinks, so that a [fuel]
    above its first length is never used up. *)
Fixpoint prune_bugs (fuel i : nat) (bugs : list Z) (bw : BugWorld) : BugWorld :=
  match fuel with
  | O => bw
  | S fuel' =>
      match nth_error (self_bugs bw) i with
      | None => bw
      | Some bug => prune_bugs fuel' (S i) bugs (drop_bug bugs bug bw)
      end
  end.

(** [Bug.query.filter_by(bug_id=bug).one()]: [None] when [one] raises. *)
Definition bug_query_one (rows : list Bug.t) (bug_id : Z) : option Bug.t :=
  match filter (fun b => Bug.bug_id b =? bug_id) rows with
  | [b] => Some b
  | _ => None
  end.

Definition ascii_lower (c : ascii) : ascii :=
  let n := nat_of_ascii c in
  if (Nat.leb 65 n && Nat.leb n 90)%bool then ascii_of_nat (n + 32) else c.

(** [s.lower()] *)
Fixpoint lower (s : string) : string :=
  match s with
  | EmptyString => EmptyString
  | String c s' => String (ascii_lower c) (lower s')
  end.

(** [sub in s] for strings. *)
Fixpoint contains (sub s : string) : bool :=
  String.prefix sub s
  || match s with
     | EmptyString => false
     | String _ s' => contains sub s'
     end.

(** [Bug.fetch_details(bug)] on a bug that bugzilla returned. *)
Definition fetch_details (newbug : BzBug) (b : Bug.t) : Bug.t :=
  let parent :=
    if (bz_product newbug =? "Security Response")%string then true
    else Bug.parent b in
  let security :=
    if contains "security" (lower (bz_keywords newbug)) then true
    else Bug.security b in
  Bug.mk (Bug.bug_id b) (bz_short_desc newbug) security (Bug.url b) parent.

(** [Bug(bug_id=n)]: the columns [security] and [parent] default to
    [False], [title] and [url] are not assigned. *)
Definition new_Bug (bz : BzEnv) (n : Z) : Bug.t :=
  Bug.mk n (null_title bz) false None false.

(** One round of the second loop of [update_bugs]: a Bug that the query
    finds is appended unless [self.bugs] holds it; a Bug that had to be
    created is a new object, which [self.bugs] cannot hold. *)
Definition attach_bug (bz : BzEnv) (bug : Z) (bw : BugWorld)
  : bug_outcome * BugWorld :=
  match bug_query_one (bug_table bw) bug with
  | Some b =>
      if negb (existsb (bug_eqb b) (self_bugs bw)) then
        (Done, set_self_bugs (self_bugs bw ++ [b]) bw)
      else (Done, bw)
  | None =>
      if bodhi_email bz then
        match getbug bz bug with
        | None => (Fault, bw)
        | Some newbug =>
            let b := fetch_details newbug (new_Bug bz (bz_bug_id newbug)) in
            let bw := set_self_bugs (self_bugs bw ++ [b]) bw in
            (Done, mk_BugWorld (bw_world bw) (bug_table bw ++ [b]))
        end
      else
        let b := new_Bug bz bug in
        let bw := set_self_bugs (self_bugs bw ++ [b]) bw in
        (Done, mk_BugWorld (bw_world bw) (bug_table bw ++ [b]))
  end.

Fixpoint attach_bugs (bz : BzEnv) (bugs : list Z) (bw : BugWorld)
  : bug_outcome * BugWorld :=
  match bugs with
  | [] => (Done, bw)
  | bug :: bugs' =>
      match attach_bug bz bug bw with
      | (Done, bw') => attach_bugs bz bugs' bw'
      | (Fault, bw') => (Fault, bw')
      end
  end.

(** [Update.update_bugs] *)
Definition update_bugs (bz : BzEnv) (bugs : list Z) (bw : BugWorld)
  : bug_outcome * BugWorld :=
  let bw := prune_bugs (S (List.length (self_bugs bw))) 0 bugs bw in
  attach_bugs bz bugs bw.


(** What the first loop of [update_bugs] leaves of a list: a bug whose id
    is asked for stays; when a bug is removed, the list moves up under the
    iterator and the bug that followed is never looked at. *)
Fixpoint kept (bugs : list Z) (l : list Bug.t) : list Bug.t :=
  match l with
  | [] => []
  | bug :: l1 =>
      if Py.in_Z (Bug.bug_id bug) bugs then bug :: kept bugs l1
      else match l1 with
           | [] => []
           | skipped :: l2 => skipped :: kept bugs l2
           end
  end.
(** ** Further vocabulary *)

(** A string of decimal digits. *)
Fixpoint digits_only (s : string) : bool :=
  match s with
  | EmptyString => true
  | String c s' =>
      match Py.digit_of c with
      | Some _ => digits_only s'
      | None => false
      end
  end.

(** [c in s] for a character. *)
Fixpoint has_char (c : ascii) (s : string) : bool :=
  match s with
  | EmptyString => false
  | String c' s' => Ascii.eqb c' c || has_char c s'
  end.


(** The kernel update next to an aliased update of another release, and
    next to an update that got its alias the year before. *)
Definition ex_next_world : World :=
  mk_World ex_update [ex_rhel_update] [] [] [] [].

Definition ex_last_year_world : World :=
  mk_World ex_update [Update.with_alias (Some "FEDORA-2008-0123") ex_update]
    [] [] [] [].

(** The kernel update with the request [obsolete], and the kernel update
    once [request_complete] ran on it. *)
Definition ex_obsolete_requested : World :=
  ex_world (Update.with_request (Some RObsolete) ex_update).

Definition ex_pushed_world : World :=
  snd (request_complete ex_env (ex_world ex_update)).

(** The state after an assignment to [self], after calls to koji, after a
    mail and after a flash message. *)
Definition with_self (u : Update.t) (w : World) : World :=
  mk_World u (others w) (cve_table w) (outbox w) (flashed w) (koji_calls w).

Definition koji_called (cs : list KojiCall) (w : World) : World :=
  mk_World (self w) (others w) (cve_table w) (outbox w) (flashed w)
    (koji_calls w ++ cs).

Definition mailed (m : Mail) (w : World) : World :=
  mk_World (self w) (others w) (cve_table w) (outbox w ++ [m]) (flashed w)
    (koji_calls w).

Definition flash_logged (msg : string) (w : World) : World :=
  mk_World (self w) (others w) (cve_table w) (outbox w) (flashed w ++ [msg])
    (koji_calls w).

(** The state after the tail of [comment]: the comment is appended and
    the notice goes to the people of the update. *)
Definition said (c : Comment.t) (w : World) : World :=
  mailed (Send (comment_people (commented c (self w))) "comment")
    (with_self (commented c (self w)) w).

(** The calls that [untag] and [unpush] make to koji. *)
Definition untag_calls (u : Update.t) : list KojiCall :=
  map (fun build => UntagBuild (get_build_tag u) (Build.nvr build))
    (Update.builds u).

Definition unpush_calls (u : Update.t) : list KojiCall :=
  map (fun build =>
         if Build.inherited build then
           UntagBuild (get_build_tag u) (Build.nvr build)
         else
           MoveBuild (get_build_tag u)
             (Release.dist_tag (Update.release u) ++ "-updates-candidate")
             (Build.nvr build))
    (Update.builds u).

(** The status of an update whose builds carry the candidate tag. *)
Definition is_candidate (s : Status) : bool :=
  match s with
  | SPending | SObsolete => true
  | _ => false
  end.

(** The state after [unpush] did its work, and after [obsolete]. *)
Definition unpushed (w : World) : World :=
  mailed (SendAdmin "unpushed")
    (with_self (Update.with_status SPending (Update.with_pushed false (self w)))
       (koji_called (unpush_calls (self w)) w)).

Definition obsoleted_world (newer : option string) (w : World) : World :=
  said
    (Comment.mk "bodhi" 0
       (if truthy newer then "This update has been obsoleted by " ++ str_opt id newer
        else "This update has been obsoleted") false)
    (with_self
       (Update.with_request None
          (Update.with_status SObsolete (Update.with_pushed false (self w))))
       (koji_called (untag_calls (self w)) w)).

(** The kernel update in testing and without a request, its second build
    tagged by inheritance. *)
Definition ex_testing_world : World :=
  mk_World
    (Update.with_request None
       (Update.create 1234000000
          (Update.mk_kwargs (Some Bugfix) (Some STesting) None (Some true)
             "lmacken" None None None None None None None None ex_f9
             [ex_build; Build.mk "kernel-doc-2.6.0-1.fc9" true ex_kernel ex_f9]
             [] [])))
    [] [] [] [] [].

(** The state in which the karma block of [comment] stops: the total is
    adjusted, nothing else has happened. *)
Definition karma_adjusted (a : string) (karma : Z) (w : World) : World :=
  with_self (Update.with_karma (adjusted_karma a karma (self w)) (self w)) w.

(** An update with bugs 1, 2 and 3, and a bugzilla that is not asked. *)
Definition ex_bugs : list Bug.t :=
  [Bug.mk 1 "one" false None false; Bug.mk 2 "two" false None false;
   Bug.mk 3 "three" false None false].

Definition ex_bug_world : BugWorld :=
  set_self_bugs ex_bugs (mk_BugWorld (ex_world ex_update) ex_bugs).

Definition ex_bz : BzEnv := mk_BzEnv false (fun _ => None) "".

(** A koji whose latest builds are those that [ex_env] lists. *)
Definition ex_latest : Latest :=
  mk_Latest (listTagged ex_env) (fun _ => ["kernel"; "2.6.5"; "1.fc9"]).

(** The state in which [update_cves ids] has nothing left to do: the
    table has no repeated id, and every id is in the table and held by
    the update. *)
Definition cves_settled (ids : list string) (w : World) : Prop :=
  NoDup (map CVE.cve_id (cve_table w))
  /\ forall id, In id ids ->
       In (CVE.mk id) (cve_table w) /\ In (CVE.mk id) (Update.cves (self w)).

(** ** Properties *)

(** *** [get_build_tag] *)

Lemma get_build_tag_cases (u : Update.t) :
  get_build_tag u =
  match Update.status u with
  | SPending | SObsolete =>
      (Release.dist_tag (Update.release u) ++ "-updates") ++ "-candidate"
  | STesting => (Release.dist_tag (Update.release u) ++ "-updates") ++ "-testing"
  | SStable | SUnpushed => Release.dist_tag (Update.release u) ++ "-updates"
  end.
Proof.
  unfold get_build_tag. destruct (Update.status u); reflexivity.
Qed.

(** C10: on an update whose status is [unpushed], [get_build_tag] returns
    the bare base tag, the release's [dist_tag] followed by "-updates",
    which is also what it returns for the same update with status
    [stable]. *)
Theorem get_build_tag_unpushed (u : Update.t) :
  Update.status u = SUnpushed ->
  get_build_tag u = Release.dist_tag (Update.release u) ++ "-updates"
  /\ get_build_tag u = get_build_tag (Update.with_status SStable u).
Proof.
  intros Hst. rewrite !get_build_tag_cases, Hst. cbn. split; reflexivity.
Qed.

Lemma get_build_tag_unpushed_witness :
  Update.status (Update.with_status SUnpushed ex_update) = SUnpushed
  /\ get_build_tag (Update.with_status SUnpushed ex_update) = "dist-f9-updates"
  /\ get_build_tag (Update.with_status SUnpushed ex_update)
     = get_build_tag
         (Update.with_status SStable (Update.with_status SUnpushed ex_update)).
Proof.
  split; [reflexivity|].
  exact (get_build_tag_unpushed (Update.with_status SUnpushed ex_update) eq_refl).
Defined.

(** *** Column defaults *)

(** C9: an update created without a value for [request] starts with the
    request [testing], not with none; created without a value for [status]
    it starts [pending]. *)
Theorem create_request_default (now : datetime) (k : Update.kwargs) :
  Update.k_request k = None ->
  Update.request (Update.create now k) = Some RTesting
  /\ Update.request (Update.create now k) <> None
  /\ (Update.k_status k = None -> Update.status (Update.create now k) = SPending).
Proof.
  intros Hreq. unfold Update.create. cbn. rewrite Hreq. cbn.
  repeat split; [discriminate|].
  intros Hst. rewrite Hst. reflexivity.
Qed.

Lemma create_request_default_witness :
  Update.k_request ex_kwargs = None
  /\ Update.k_status ex_kwargs = None
  /\ Update.request ex_update = Some RTesting
  /\ Update.request ex_update <> None
  /\ Update.status ex_update = SPending.
Proof.
  destruct (create_request_default 1234000000 ex_kwargs eq_refl)
    as (Hrq & Hnone & Hst).
  split; [reflexivity|]. split; [reflexivity|]. split; [exact Hrq|].
  split; [exact Hnone | exact (Hst eq_refl)].
Defined.

(** *** [set_request]: validation *)

(** The four validations at the head of [set_request] raise
    [InvalidRequest] and change nothing. *)
Lemma set_request_validation (env : Env) (fuel : nat) (action : string)
  (pathcheck : bool) (w : World) :
  authorized_user env (self w) = false
  \/ Py.in_ action ["testing"; "stable"; "obsolete"; "unpush"] = false
  \/ (action =? status_name (Update.status (self w)))%string = true
  \/ eq_request action (Update.request (self w)) = true ->
  exists msg,
    set_request env fuel action pathcheck w = (Raise (InvalidRequest msg), w).
Proof.
  intros H. unfold set_request, bind, get_self, raise.
  destruct (authorized_user env (self w)); cbn [negb];
    [| eexists; reflexivity].
  destruct (Py.in_ action ["testing"; "stable"; "obsolete"; "unpush"]);
    cbn [negb]; [| eexists; reflexivity].
  destruct (action =? status_name (Update.status (self w)))%string;
    [eexists; reflexivity|].
  destruct (eq_request action (Update.request (self w)));
    [eexists; reflexivity|].
  destruct H as [H | [H | [H | H]]]; discriminate.
Qed.

(** C3: [set_request] with an action equal to the current status of the
    update, or equal to its pending request, raises [InvalidRequest] and
    leaves the whole state as it was. *)
Theorem set_request_duplicate (env : Env) (fuel : nat) (action : string)
  (pathcheck : bool) (w : World) :
  action = status_name (Update.status (self w))
  \/ Some action = option_map request_name (Update.request (self w)) ->
  exists msg,
    set_request env fuel action pathcheck w = (Raise (InvalidRequest msg), w).
Proof.
  intros H. apply set_request_validation. right. right.
  destruct H as [H | H].
  - left. rewrite <- H. apply String.eqb_refl.
  - right. destruct (Update.request (self w)) as [r |]; cbn in H; [| discriminate].
    injection H as ->. cbn [eq_request]. apply String.eqb_refl.
Qed.

Lemma set_request_duplicate_witness :
  Some "testing" = option_map request_name (Update.request (self (ex_world ex_update)))
  /\ exists msg,
       set_request ex_env 2 "testing" true (ex_world ex_update)
       = (Raise (InvalidRequest msg), ex_world ex_update).
Proof.
  split; [reflexivity|].
  apply (set_request_duplicate ex_env 2 "testing" true (ex_world ex_update)).
  right. reflexivity.
Defined.

(** *** [assign_id] *)

(** C8, as the code has it: [assign_id] leaves the alias, and the whole
    state, as it was on an update whose alias is neither null nor the text
    "None". *)
Theorem assign_id_keeps_alias (env : Env) (w : World) (a : string) :
  Update.alias (self w) = Some a ->
  a <> "None" ->
  assign_id env w = (Return tt, w)
  /\ Update.alias (self (snd (assign_id env w))) = Some a.
Proof.
  intros Ha Hn. unfold assign_id, bind, get_self. cbn. rewrite Ha.
  apply String.eqb_neq in Hn. rewrite Hn. cbn. split; [reflexivity | exact Ha].
Qed.

Lemma assign_id_keeps_alias_witness :
  Update.alias (self (ex_world ex_epel_pushed)) = Some "FEDORA-EPEL-2009-0001"
  /\ "FEDORA-EPEL-2009-0001" <> "None"
  /\ assign_id ex_env (ex_world ex_epel_pushed)
     = (Return tt, ex_world ex_epel_pushed)
  /\ Update.alias (self (snd (assign_id ex_env (ex_world ex_epel_pushed))))
     = Some "FEDORA-EPEL-2009-0001".
Proof.
  split; [reflexivity|]. split; [discriminate|].
  apply (assign_id_keeps_alias ex_env (ex_world ex_epel_pushed)
           "FEDORA-EPEL-2009-0001").
  - reflexivity.
  - discriminate.
Defined.

(** C8 fails as stated: the alias "None" is not null, and [assign_id]
    replaces it. *)
Lemma assign_id_replaces_None_text :
  Update.alias (self ex_none_world) = Some "None"
  /\ Update.alias (self ex_none_world) <> None
  /\ assign_id ex_env ex_none_world
     = (Return tt,
        mk_World (Update.with_alias (Some "FEDORA-2009-0008") (self ex_none_world))
          (others ex_none_world) [] [] [] [])
  /\ Update.alias (self (snd (assign_id ex_env ex_none_world)))
     <> Update.alias (self ex_none_world).
Proof.
  repeat split; try discriminate; vm_compute; discriminate.
Qed.

(** *** [request_complete] *)

(** [assign_id], branch by branch. *)
Lemma assign_id_run (env : Env) (w : World) :
  assign_id env w
  = if alias_set (self w) then (Return tt, w)
    else match next_id env w with
         | Return id =>
             (Return tt,
              mk_World (Update.with_alias (Some (new_alias env (self w) id)) (self w))
                (others w) (cve_table w) (outbox w) (flashed w) (koji_calls w))
         | Raise e => (Raise e, w)
         end.
Proof.
  unfold assign_id, bind, get_self, alias_set.
  destruct (match Update.alias (self w) with Some a => negb (a =? "None")%string | None => false end);
    [reflexivity|].
  destruct (next_id env w); reflexivity.
Qed.

(** The request [obsolete] never reaches [assign_id]. *)
Lemma request_complete_obsolete (env : Env) (w : World) :
  Update.request (self w) = Some RObsolete ->
  exists w',
    request_complete env w = (Return tt, w')
    /\ Update.status (self w') = SObsolete
    /\ Update.pushed (self w') = false
    /\ Update.request (self w') = None.
Proof.
  intros Hr. unfold request_complete, bind, get_self. rewrite Hr. cbn.
  eexists. repeat split.
Qed.

(** The requests [testing] and [stable]: whenever [assign_id] does not
    raise, the mapping of the status holds and the request is cleared. *)
Lemma request_complete_push (env : Env) (w : World) (r : Request) :
  Update.request (self w) = Some r ->
  r <> RObsolete ->
  (alias_set (self w) = true
   \/ exists id, next_id env (pushed_world env r w) = Return id) ->
  exists w',
    request_complete env w = (Return tt, w')
    /\ Update.status (self w') = status_of_request r
    /\ Update.pushed (self w') = true
    /\ Update.date_pushed (self w') = Some (utcnow env)
    /\ Update.request (self w') = None
    /\ (alias_set (self w) = true -> Update.alias (self w') = Update.alias (self w))
    /\ (alias_set (self w) = false ->
        exists id, next_id env (pushed_world env r w) = Return id
                   /\ Update.alias (self w') = Some (new_alias env (self w) id)).
Proof.
  intros Hr Hno Hok. unfold request_complete. unfold bind at 1. unfold get_self at 1.
  rewrite Hr.
  assert (Hassign : exists w1,
            assign_id env (pushed_world env r w) = (Return tt, w1)
            /\ Update.status (self w1) = status_of_request r
            /\ Update.pushed (self w1) = true
            /\ Update.date_pushed (self w1) = Some (utcnow env)
            /\ (alias_set (self w) = true -> Update.alias (self w1) = Update.alias (self w))
            /\ (alias_set (self w) = false ->
                exists id, next_id env (pushed_world env r w) = Return id
                   /\ Update.alias (self w1) = Some (new_alias env (self w) id))).
  { rewrite assign_id_run.
    change (alias_set (self (pushed_world env r w))) with (alias_set (self w)).
    destruct (alias_set (self w)) eqn:Hset.
    - eexists. split; [reflexivity|]. cbn. repeat split; congruence.
    - destruct Hok as [Hok | (id & Hid)]; [discriminate|]. rewrite Hid.
      eexists. split; [reflexivity|]. cbn. repeat split; try congruence.
      intros _. exists id. split; reflexivity. }
  destruct Hassign as (w1 & Hrun & Hst & Hp & Hd & Hkeep & Hnew).
  destruct r; [| | contradiction]; cbn [eq_request request_name String.eqb Ascii.eqb Bool.eqb];
    unfold bind; cbn [modify_self self others cve_table outbox flashed koji_calls];
    unfold pushed_world in Hrun; cbn [status_of_request] in Hrun; rewrite Hrun;
    eexists; (split; [reflexivity|]); cbn; repeat split; assumption.
Qed.

(** When [assign_id] raises, [request_complete] stops there: the status
    is changed, the request is not cleared. *)
Lemma request_complete_raises (env : Env) (w : World) (r : Request) (e : exn) :
  Update.request (self w) = Some r ->
  r <> RObsolete ->
  alias_set (self w) = false ->
  next_id env (pushed_world env r w) = Raise e ->
  request_complete env w = (Raise e, pushed_world env r w).
Proof.
  intros Hr Hno Hset Hraise. unfold request_complete. unfold bind at 1.
  unfold get_self at 1. rewrite Hr.
  assert (Hassign : assign_id env (pushed_world env r w) = (Raise e, pushed_world env r w)).
  { rewrite assign_id_run.
    change (alias_set (self (pushed_world env r w))) with (alias_set (self w)).
    rewrite Hset, Hraise. reflexivity. }
  destruct r; [| | contradiction]; cbn [eq_request request_name String.eqb Ascii.eqb Bool.eqb];
    unfold bind; cbn [modify_self self others cve_table outbox flashed koji_calls];
    unfold pushed_world in Hassign; cbn [status_of_request] in Hassign; rewrite Hassign;
    reflexivity.
Qed.


(** The first alias of a release whose prefix is "FEDORA-EPEL". *)
Lemma request_complete_first_epel :
  fst (request_complete ex_env (ex_world ex_epel_update)) = Return tt
  /\ Update.alias ex_epel_pushed = Some "FEDORA-EPEL-2009-0001"
  /\ Update.status ex_epel_pushed = STesting
  /\ Update.pushed ex_epel_pushed = true
  /\ Update.date_pushed ex_epel_pushed = Some (utcnow ex_env)
  /\ Update.request ex_epel_pushed = None.
Proof. vm_compute. repeat split. Qed.

(** C4 at a failing input: the greatest alias of the database has four
    fields between dashes, unpacking it into three raises [ValueError],
    and [request_complete] stops after the status change: no alias is
    assigned and the request is not cleared. *)
Theorem request_complete_second_epel :
  Update.request (self ex_epel_world) = Some RTesting
  /\ Update.alias (self ex_epel_world) = None
  /\ fst (request_complete ex_env ex_epel_world) = Raise ValueError
  /\ Update.status (self (snd (request_complete ex_env ex_epel_world))) = STesting
  /\ Update.pushed (self (snd (request_complete ex_env ex_epel_world))) = true
  /\ Update.alias (self (snd (request_complete ex_env ex_epel_world))) = None
  /\ Update.request (self (snd (request_complete ex_env ex_epel_world)))
     = Some RTesting.
Proof. vm_compute. repeat split. Qed.

(** *** [update_cves] *)

Lemma CVE_eqb_eq (a b : CVE.t) : CVE.eqb a b = true <-> a = b.
Proof.
  destruct a as [x], b as [y]. unfold CVE.eqb. cbn.
  rewrite String.eqb_eq. split; congruence.
Qed.

Lemma existsb_CVE_In (c : CVE.t) (l : list CVE.t) :
  existsb (CVE.eqb c) l = true <-> In c l.
Proof.
  rewrite existsb_exists. split.
  - intros [x [Hin Heq]]. apply CVE_eqb_eq in Heq. now subst.
  - intros Hin. exists c. split; [assumption | now apply CVE_eqb_eq].
Qed.

(** A CVE that [self] holds has [self] among its [updates]. *)
Lemma cve_updates_self (w : World) (c : CVE.t) :
  In c (Update.cves (self w)) ->
  (List.length (cve_updates w c) =? 0)%nat = false.
Proof.
  intros Hin. unfold cve_updates. cbn [filter].
  apply existsb_CVE_In in Hin. rewrite Hin. reflexivity.
Qed.

(** The first loop of [update_cves] finds no CVE to destroy: every CVE it
    visits is still held by [self]. *)
Lemma destroy_stray_held (cves : list string) (c : CVE.t) (w : World) :
  In c (Update.cves (self w)) -> destroy_stray cves c w = (Return tt, w).
Proof.
  intros Hin. unfold destroy_stray, bind, get_world.
  rewrite (cve_updates_self w c Hin), andb_false_r. reflexivity.
Qed.

Lemma update_cves_first_loop (cves : list string) (l : list CVE.t) (w : World) :
  (forall c, In c l -> In c (Update.cves (self w))) ->
  for_ l (destroy_stray cves) w = (Return tt, w).
Proof.
  induction l as [| c l IH]; intros Hl; [reflexivity|].
  cbn [for_]. unfold bind.
  rewrite destroy_stray_held by (apply Hl; now left).
  apply IH. intros c' Hc'. apply Hl. now right.
Qed.

Lemma cve_query_one_id (rows : list CVE.t) (cve_id : string) (c : CVE.t) :
  cve_query_one rows cve_id = Some c -> CVE.cve_id c = cve_id.
Proof.
  unfold cve_query_one. intros H.
  destruct (filter _ rows) as [| c0 [| c1 l]] eqn:Hf; try discriminate.
  injection H as <-.
  assert (Hin : In c0 (filter (fun c => (CVE.cve_id c =? cve_id)%string) rows))
    by (rewrite Hf; now left).
  apply filter_In in Hin. destruct Hin as [_ Heq]. now apply String.eqb_eq.
Qed.

Lemma attach_cve_run (id : string) (w : World) :
  exists w', attach_cve id w = (Return tt, w') /\ attached [id] w w'.
Proof.
  unfold attach_cve, bind, get_cve_table, get_self.
  destruct (cve_query_one (cve_table w) id) as [cve |] eqn:Hq.
  - pose proof (cve_query_one_id _ _ _ Hq) as Hid.
    destruct (existsb (CVE.eqb cve) (Update.cves (self w))) eqn:Hex;
      cbn [negb when ret modify_self]; eexists; (split; [reflexivity|]);
      (split; [| split]); cbn; auto.
    + exists []. now rewrite app_nil_r.
    + intros id' [<- | []]. exists cve. split; [| assumption].
      now apply existsb_CVE_In.
    + now exists [cve].
    + intros id' [<- | []]. exists cve. split; [| assumption].
      apply in_or_app. right. now left.
  - cbn. eexists; (split; [reflexivity|]); (split; [| split]); cbn.
    + now exists [CVE.mk id].
    + intros c Hc. apply in_or_app. now left.
    + intros id' [<- | []]. exists (CVE.mk id). split; [| reflexivity].
      apply in_or_app. right. now left.
Qed.

(** The second loop of [update_cves] only appends: what [self] holds stays
    in front, no row leaves the table, and every id of the argument ends
    up held by [self]. *)
Lemma update_cves_second_loop (ids : list string) (w : World) :
  exists w', for_ ids attach_cve w = (Return tt, w') /\ attached ids w w'.
Proof.
  revert w. induction ids as [| id ids IH]; intros w.
  - exists w. split; [reflexivity|]. split; [| split]; auto.
    + exists []. now rewrite app_nil_r.
    + intros id [].
  - cbn [for_]. unfold bind.
    destruct (attach_cve_run id w) as (w1 & Hrun1 & (e1 & He1) & Hrows1 & Hid1).
    destruct (IH w1) as (w' & Hrun & (e & He) & Hrows & Hids).
    rewrite Hrun1, Hrun. exists w'. split; [reflexivity|].
    split; [| split].
    + exists (e1 ++ e)%list. now rewrite He, He1, <- app_assoc.
    + auto.
    + intros id' [<- | Hin]; [| now apply Hids].
      destruct (Hid1 id (or_introl eq_refl)) as (c & Hc & Hcid).
      exists c. split; [| assumption]. rewrite He. apply in_or_app. now left.
Qed.

(** [update_cves] returns, detaches nothing and destroys nothing: every
    CVE held before the call is held after it, whatever the new ids are;
    the new ids are attached. *)
Lemma update_cves_only_attaches (ids : list string) (w : World) :
  exists w', update_cves ids w = (Return tt, w') /\ attached ids w w'.
Proof.
  unfold update_cves, bind, get_self.
  rewrite update_cves_first_loop by auto.
  destruct (update_cves_second_loop ids w) as (w' & Hrun & H).
  exists w'. rewrite Hrun. split; [reflexivity | exact H].
Qed.

(** C5 at a failing input: CVE-2008-0001 is held by this update alone
    and is not among the new ids, yet after [update_cves] the update still
    holds it, in front of the new CVE, and its row is still in the table. *)
Theorem update_cves_keeps_missing_cve :
  Update.cves (self ex_cve_world) = [CVE.mk "CVE-2008-0001"]
  /\ Py.in_ "CVE-2008-0001" ["CVE-2008-0002"] = false
  /\ fst (update_cves ["CVE-2008-0002"] ex_cve_world) = Return tt
  /\ Update.cves (self (snd (update_cves ["CVE-2008-0002"] ex_cve_world)))
     = [CVE.mk "CVE-2008-0001"; CVE.mk "CVE-2008-0002"]
  /\ cve_table (snd (update_cves ["CVE-2008-0002"] ex_cve_world))
     = [CVE.mk "CVE-2008-0001"; CVE.mk "CVE-2008-0002"].
Proof. vm_compute. repeat split. Qed.

(** *** Running a method *)

Lemma runs_ret (w : World) : runs (ret tt) w (self w).
Proof. exists w. split; reflexivity. Qed.

Lemma runs_bind (m : M unit) (k : unit -> M unit) (w : World) (u1 u2 : Update.t) :
  runs m w u1 ->
  (forall w1, self w1 = u1 -> runs (k tt) w1 u2) ->
  runs (bind m k) w u2.
Proof.
  intros (w1 & Hm & Hu1) Hk. destruct (Hk w1 Hu1) as (w2 & Hk2 & Hu2).
  exists w2. unfold bind. rewrite Hm. split; assumption.
Qed.

Lemma runs_get (k : Update.t -> M unit) (w : World) (u' : Update.t) :
  runs (k (self w)) w u' -> runs (bind get_self k) w u'.
Proof. intros H. exact H. Qed.

Lemma runs_modify (f : Update.t -> Update.t) (w : World) :
  runs (modify_self f) w (f (self w)).
Proof. eexists. split; reflexivity. Qed.

Lemma runs_mail (m : Mail) (w : World) : runs (mail m) w (self w).
Proof. eexists. split; reflexivity. Qed.

Lemma runs_flash_log (msg : string) (w : World) : runs (flash_log msg) w (self w).
Proof. eexists. split; reflexivity. Qed.

Lemma runs_koji (c : KojiCall) (w : World) : runs (koji c) w (self w).
Proof. eexists. split; reflexivity. Qed.

Lemma runs_session_flush (w : World) : runs session_flush w (self w).
Proof. apply runs_ret. Qed.

(** A loop whose rounds all return and keep [self] returns and keeps it. *)
Lemma runs_for_ {A} (l : list A) (body : A -> M unit) (w : World) :
  (forall x w1, self w1 = self w -> runs (body x) w1 (self w)) ->
  runs (for_ l body) w (self w).
Proof.
  intros Hbody. assert (H : forall w1, self w1 = self w -> runs (for_ l body) w1 (self w)).
  { induction l as [| x l IH]; intros w1 Hw1.
    - cbn. rewrite <- Hw1. apply runs_ret.
    - cbn [for_]. eapply runs_bind; [apply Hbody; assumption | exact IH]. }
  apply H. reflexivity.
Qed.

(** [untag] *)
Lemma untag_runs (w : World) : runs untag w (Update.with_pushed false (self w)).
Proof.
  unfold untag. apply runs_get.
  eapply runs_bind; [apply runs_for_; intros; rewrite <- H; apply runs_koji|].
  intros w1 H1. eapply runs_bind; [apply runs_modify|].
  intros w2 H2. rewrite H1 in H2. rewrite <- H2. apply runs_ret.
Qed.

Lemma runs_eq (m : M unit) (w : World) (u u' : Update.t) :
  runs m w u -> u = u' -> runs m w u'.
Proof. intros H <-. exact H. Qed.

(** Symbolic execution of a method, one statement at a time; [Hs] names
    the equation that gives the current [self]. *)
Ltac run_prim :=
  lazymatch goal with
  | |- runs (ret tt) _ _ => apply runs_ret
  | |- runs session_save _ _ => apply runs_ret
  | |- runs session_flush _ _ => apply runs_ret
  | |- runs (modify_self _) _ _ => apply runs_modify
  | |- runs (mail _) _ _ => apply runs_mail
  | |- runs (flash_log _) _ _ => apply runs_flash_log
  | |- runs (koji _) _ _ => apply runs_koji
  | |- runs untag _ _ => apply untag_runs
  end.

Ltac run_init Hs :=
  match goal with
  | |- runs _ ?w _ =>
      let u := fresh "u" in remember (self w) as u eqn:Hs; apply eq_sym in Hs
  end.

Ltac run_next Hs :=
  let w1 := fresh "w" in
  let H1 := fresh "Hs" in
  intros w1 H1; rewrite Hs in H1; clear Hs; rename H1 into Hs.

Ltac run Hs := eapply runs_bind; [ run_prim | run_next Hs ].

Ltac run_get Hs := apply runs_get; rewrite ?Hs.

Ltac run_end Hs := eapply runs_eq; [ run_prim | rewrite Hs; try reflexivity ].

(** *** [comment] and [obsolete] *)

Lemma comment_tail_runs (c : Comment.t) (w : World) :
  runs (session_save ;;
        u <- get_self ;;
        modify_self (Update.with_comments (Update.comments u ++ [c])) ;;
        session_flush ;;
        u <- get_self ;;
        mail (Send (comment_people u) "comment")) w (commented c (self w)).
Proof.
  run_init Hs. run Hs. run_get Hs. run Hs. run Hs. run_get Hs. run_end Hs.
Qed.

(** A comment that does not count for karma is only appended. *)
Lemma comment_silent_runs (env : Env) (fuel : nat) (text : string) (karma : Z)
  (author : option string) (anonymous : bool) (w : World) :
  karma_counts (effective_author env author) karma anonymous (self w) = false ->
  runs (comment env (S fuel) text karma author anonymous) w
    (commented (Comment.mk (effective_author env author) karma text anonymous)
       (self w)).
Proof.
  intros Hc. cbn [comment]. apply runs_get.
  unfold karma_counts in Hc. rewrite Hc. cbn [when].
  eapply runs_bind; [apply runs_ret|]. intros w1 H1. rewrite <- H1.
  apply comment_tail_runs.
Qed.

Lemma obsolete_runs (env : Env) (fuel : nat) (newer : option string) (w : World) :
  runs (obsolete_with (comment env (S fuel)) newer) w (obsoleted newer (self w)).
Proof.
  unfold obsolete_with, obsoleted.
  destruct (truthy newer); run_init Hs; run Hs; run Hs; run Hs;
    (eapply runs_bind;
     [ apply comment_silent_runs; reflexivity | run_next Hs ]);
    run_end Hs.
Qed.

(** *** [comment]: karma accounting *)

Lemma has_voted_existsb (u : Update.t) (a : string) (karma : Z) :
  existsb (fun c => (Comment.author c =? a)%string && (Comment.karma c =? karma))
    (Update.comments u) = true <-> has_voted u a karma.
Proof.
  rewrite existsb_exists. unfold has_voted.
  split; intros (c & Hin & H); exists c; (split; [assumption|]).
  - apply andb_true_iff in H. destruct H as [Ha Hk].
    apply String.eqb_eq in Ha. apply Z.eqb_eq in Hk. now split.
  - destruct H as [Ha Hk]. apply andb_true_iff.
    split; [now apply String.eqb_eq | now apply Z.eqb_eq].
Qed.

Lemma has_voted_in_Z (u : Update.t) (a : string) (karma : Z) :
  Py.in_Z karma (karma_of a u) = true <-> has_voted u a karma.
Proof.
  unfold Py.in_Z, karma_of, has_voted. rewrite existsb_exists. split.
  - intros (k & Hin & Hk). apply Z.eqb_eq in Hk. subst k.
    apply in_map_iff in Hin. destruct Hin as (c & Hc & Hin).
    apply filter_In in Hin. destruct Hin as [Hin Ha].
    apply String.eqb_eq in Ha. now exists c.
  - intros (c & Hin & Ha & Hk). exists karma. split; [| apply Z.eqb_refl].
    apply in_map_iff. exists c. split; [assumption|].
    apply filter_In. split; [assumption | now apply String.eqb_eq].
Qed.

Lemma not_true_false (b : bool) (P : Prop) : (b = true <-> P) -> ~ P -> b = false.
Proof.
  intros H Hn. destruct b; [exfalso; apply Hn, H; reflexivity | reflexivity].
Qed.

Lemma karma_counts_iff (a : string) (karma : Z) (anonymous : bool) (u : Update.t) :
  karma_counts a karma anonymous u = true
  <-> anonymous = false /\ karma <> 0 /\ ~ has_voted u a karma.
Proof.
  unfold karma_counts. rewrite !andb_true_iff, !negb_true_iff, Z.eqb_neq.
  rewrite <- has_voted_existsb. rewrite not_true_iff_false. tauto.
Qed.

(** A comment that counts for karma does not get past the first threshold
    test: the total is adjusted, then the read of [self.stable_karma]
    raises; the comment is not appended and no notice is sent. *)
Lemma comment_counted (env : Env) (fuel : nat) (text : string) (karma : Z)
  (author : option string) (anonymous : bool) (w : World) :
  karma_counts (effective_author env author) karma anonymous (self w) = true ->
  comment env (S fuel) text karma author anonymous w
  = (Raise (AttributeError "stable_karma"),
     karma_adjusted (effective_author env author) karma w).
Proof.
  intros Hc. cbn [comment]. unfold karma_counts in Hc.
  unfold bind at 1. unfold get_self at 1. rewrite Hc. cbn [when].
  unfold karma_adjusted, adjusted_karma, karma_of, with_self.
  unfold bind at 1. unfold bind at 1.
  destruct ((karma =? 1) && _); [reflexivity|].
  destruct ((karma =? -1) && _); reflexivity.
Qed.

(** C2 at a failing input: Bob has voted +1 and then -1, so that his
    last recorded karma is -1 and the total is -1.  His next +1 reverses
    that -1, but it repeats the pair of his first comment: [comment] does
    not count it and the total stays -1, it does not move by 2, although
    the docstring of [comment] has only the last karma adjustment of a user
    counted. *)
Theorem comment_reversal_ignored :
  Update.comments (self ex_after_minus)
  = [Comment.mk "bob" 1 "works for me" false;
     Comment.mk "bob" (-1) "it broke my system" false]
  /\ Update.karma (self ex_after_minus) = -1
  /\ fst (comment ex_env 2 "fixed" 1 (Some "bob") false ex_after_minus) = Return tt
  /\ Update.karma (self (snd (comment ex_env 2 "fixed" 1 (Some "bob") false
                               ex_after_minus))) = -1
  /\ Update.karma (self (snd (comment ex_env 2 "fixed" 1 (Some "bob") false
                               ex_after_minus)))
     <> Update.karma (self ex_after_minus) + 2.
Proof. vm_compute. repeat split. discriminate. Qed.

(** *** [comment]: the stable-karma threshold *)

(** C1 at a failing input: the package of the update has the stable
    threshold 3, Alice and Carol have voted +1, and Bob's +1 makes the
    total 3.  [comment] adds the vote to the total and then reads
    [self.stable_karma] on the update, which has no such attribute: the
    call raises [AttributeError], the request is not set to stable, and
    Bob's comment is not recorded. *)
Theorem comment_stable_karma_attribute_error :
  map (fun build => Package.stable_karma (Build.package build))
    (Update.builds (self ex_two_votes)) = [Some 3]
  /\ Update.karma (self ex_two_votes) = 2
  /\ Update.request (self ex_two_votes) = Some RTesting
  /\ comment ex_env 2 "works for me" 1 (Some "bob") false ex_two_votes
     = (Raise (AttributeError "stable_karma"),
        ex_world (Update.with_karma 3 (self ex_two_votes)))
  /\ Update.request
       (self (snd (comment ex_env 2 "works for me" 1 (Some "bob") false
                     ex_two_votes))) <> Some RStable
  /\ Update.comments
       (self (snd (comment ex_env 2 "works for me" 1 (Some "bob") false
                     ex_two_votes)))
     = Update.comments (self ex_two_votes).
Proof. vm_compute. repeat split. discriminate. Qed.

(** *** [set_request]: the requests for testing and for stable *)

Lemma effective_author_user (env : Env) :
  effective_author env (Some (user_name env)) = user_name env.
Proof.
  unfold effective_author, truthy.
  destruct (user_name env =? "")%string eqn:He; cbn; [| reflexivity].
  apply String.eqb_eq in He. now rewrite He.
Qed.

(** Past the four validations, a request for testing or for stable reaches
    the read of [self.type], which raises; nothing has changed by then. *)
Lemma set_request_push (env : Env) (fuel : nat) (action : string)
  (pathcheck : bool) (w : World) :
  authorized_user env (self w) = true ->
  action = "testing" \/ action = "stable" ->
  (action =? status_name (Update.status (self w)))%string = false ->
  eq_request action (Update.request (self w)) = false ->
  set_request env fuel action pathcheck w = (Raise (AttributeError "type"), w).
Proof.
  intros Hauth Ha Hst Hrq. unfold set_request. unfold bind at 1.
  unfold get_self at 1. rewrite Hauth, Hst, Hrq. cbn [negb].
  destruct Ha as [-> | ->]; reflexivity.
Qed.

(** C7 at a failing input: the kernel update, pending and without a
    request, and an authorized request for testing.  Past the validations
    [set_request] reads [self.type] (the column is [type_]) and raises
    [AttributeError]: the request is not set, nothing is changed. *)
Theorem set_request_testing_attribute_error :
  authorized_user ex_env (self ex_idle) = true
  /\ Update.status (self ex_idle) = SPending
  /\ Update.request (self ex_idle) = None
  /\ Update.type_ (self ex_idle) = Some Bugfix
  /\ set_request ex_env 2 "testing" true ex_idle
     = (Raise (AttributeError "type"), ex_idle)
  /\ Update.request (self (snd (set_request ex_env 2 "testing" true ex_idle)))
     <> Some RTesting.
Proof. vm_compute. repeat split. discriminate. Qed.

(** C6 at a failing input: the kernel update (pending, request testing)
    holds kernel-2.6.0-1.fc9 while koji lists kernel-2.6.5-1.fc9 under
    "dist-f9-updates", which compares above it.  The authorized request for
    stable with the path check enabled does not reach the check: the read
    of [self.type] raises [AttributeError], not the [InvalidRequest] of a
    broken update path.  The state is unchanged. *)
Theorem set_request_stable_attribute_error :
  authorized_user ex_env (self (ex_world ex_update)) = true
  /\ Update.status ex_update = SPending
  /\ Update.request ex_update = Some RTesting
  /\ In (mk_KojiBuild "kernel" "2.6.5" "1.fc9" None "kernel-2.6.5-1.fc9")
       (tagged_builds ex_env ex_update ex_build)
  /\ labelCompare ex_env (build_evr ex_env (my_build ex_env ex_build))
       (build_evr ex_env
          (mk_KojiBuild "kernel" "2.6.5" "1.fc9" None "kernel-2.6.5-1.fc9")) < 0
  /\ set_request ex_env 2 "stable" true (ex_world ex_update)
     = (Raise (AttributeError "type"), ex_world ex_update)
  /\ forall msg,
       fst (set_request ex_env 2 "stable" true (ex_world ex_update))
       <> Raise (InvalidRequest msg).
Proof.
  vm_compute. repeat split; try discriminate. now left.
Qed.

(** *** [set_request]: the same action twice in a row *)

Lemma in_actions (action : string) :
  Py.in_ action ["testing"; "stable"; "obsolete"; "unpush"] = true ->
  action = "testing" \/ action = "stable" \/ action = "obsolete" \/ action = "unpush".
Proof.
  unfold Py.in_. cbn [existsb].
  destruct (String.eqb_spec action "testing"); [now left|].
  destruct (String.eqb_spec action "stable"); [now right; left|].
  destruct (String.eqb_spec action "obsolete"); [now right; right; left|].
  destruct (String.eqb_spec action "unpush"); [now right; right; right|].
  discriminate.
Qed.

Lemma runs_inv (m : M unit) (w w' : World) (u : Update.t) :
  runs m w u -> m w = (Return tt, w') -> self w' = u.
Proof. intros (w1 & H1 & Hu) H. rewrite H in H1. congruence. Qed.

(** What a request that [set_request] accepted leaves behind: the action
    is the new status or the new request, unless the action is the
    unpushing. *)
Lemma set_request_recorded (env : Env) (fuel : nat) (action : string)
  (pathcheck : bool) (w w' : World) :
  set_request env (S fuel) action pathcheck w = (Return tt, w') ->
  action <> "unpush" ->
  action = status_name (Update.status (self w'))
  \/ Some action = option_map request_name (Update.request (self w')).
Proof.
  intros Hrun Hnu.
  destruct (authorized_user env (self w)) eqn:Hauth.
  2: { destruct (set_request_validation env (S fuel) action pathcheck w
                   (or_introl Hauth)) as (msg & H). congruence. }
  destruct (Py.in_ action ["testing"; "stable"; "obsolete"; "unpush"]) eqn:Hin.
  2: { destruct (set_request_validation env (S fuel) action pathcheck w
                   (or_intror (or_introl Hin))) as (msg & H). congruence. }
  destruct (action =? status_name (Update.status (self w)))%string eqn:Hst.
  { destruct (set_request_validation env (S fuel) action pathcheck w
                (or_intror (or_intror (or_introl Hst)))) as (msg & H).
    congruence. }
  destruct (eq_request action (Update.request (self w))) eqn:Hrq.
  { destruct (set_request_validation env (S fuel) action pathcheck w
                (or_intror (or_intror (or_intror Hrq)))) as (msg & H).
    congruence. }
  apply in_actions in Hin.
  destruct Hin as [Ha | [Ha | [Ha | Ha]]]; [| | | contradiction].
  1, 2: rewrite (set_request_push env (S fuel) action pathcheck w Hauth) in Hrun;
    auto; discriminate.
  subst action. left. revert Hrun. unfold set_request. unfold bind at 1.
  unfold get_self at 1. rewrite Hauth, Hst, Hrq.
  cbn [negb Py.in_ existsb String.eqb Ascii.eqb Bool.eqb orb].
  intros Hrun.
  assert (Hr : runs (obsolete env (S fuel) None ;;
                     flash_log (Update.title (self w) ++ " has been obsoleted")) w
                 (obsoleted None (self w))).
  { eapply runs_bind; [apply obsolete_runs|]. intros w1 H1.
    eapply runs_eq; [apply runs_flash_log | exact H1]. }
  rewrite (runs_inv _ _ _ _ Hr Hrun). reflexivity.
Qed.

Lemma set_request_twice (env : Env) (fuel fuel' : nat) (action : string)
  (pathcheck pathcheck' : bool) (w w' : World) :
  set_request env (S fuel) action pathcheck w = (Return tt, w') ->
  action <> "unpush" ->
  exists msg,
    set_request env fuel' action pathcheck' w' = (Raise (InvalidRequest msg), w').
Proof.
  intros Hrun Hnu. apply set_request_validation. right. right.
  destruct (set_request_recorded env fuel action pathcheck w w' Hrun Hnu) as [H | H].
  - left. rewrite <- H. apply String.eqb_refl.
  - right. destruct (Update.request (self w')) as [r |]; cbn in H; [| discriminate].
    injection H as ->. cbn [eq_request]. apply String.eqb_refl.
Qed.

(** *** Decimal numerals: [str], ['%0.4d'] and [int] *)

Lemma digits_string_of_uint (d : Decimal.uint) (acc : Z) :
  Py.digits (NilEmpty.string_of_uint d) acc
  = Some (acc * 10 ^ Z.of_N (DecimalPos.Unsigned.usize d)
          + Z.of_N (DecimalPos.Unsigned.of_lu (Decimal.rev d))).
Proof.
  revert acc.
  induction d; intros acc;
    [ cbn; f_equal; lia | .. ];
    cbn [NilEmpty.string_of_uint Py.digits];
    match goal with |- context [Decimal.rev (?D d)] =>
      change (Decimal.rev (D d)) with (Decimal.revapp d (D Decimal.Nil)) end;
    rewrite DecimalPos.Unsigned.of_lu_revapp;
    cbn [DecimalPos.Unsigned.usize DecimalPos.Unsigned.of_lu];
    rewrite N2Z.inj_succ, Z.pow_succ_r by lia;
    match goal with |- context [Py.digit_of ?c] =>
      let v := eval vm_compute in (Py.digit_of c) in
      change (Py.digit_of c) with v end;
    cbv iota beta; rewrite IHd; f_equal;
    rewrite N2Z.inj_add, N2Z.inj_mul, N2Z.inj_pow; cbn [Z.of_N N.mul N.add];
    try (rewrite N2Z.inj_add, N2Z.inj_mul); cbn [Z.of_N]; lia.
Qed.

Lemma digits_to_uint (n : N) :
  Py.digits (NilEmpty.string_of_uint (N.to_uint n)) 0 = Some (Z.of_N n).
Proof.
  rewrite digits_string_of_uint, <- DecimalPos.Unsigned.of_uint_alt.
  change (Pos.of_uint (N.to_uint n)) with (N.of_uint (N.to_uint n)).
  rewrite DecimalN.Unsigned.of_to. f_equal.
Qed.

Lemma string_of_uint_digits (d : Decimal.uint) :
  digits_only (NilEmpty.string_of_uint d) = true.
Proof. induction d; cbn; auto. Qed.

Lemma digits_only_app (s t : string) :
  digits_only (s ++ t) = digits_only s && digits_only t.
Proof.
  induction s as [| c s IH]; cbn; [reflexivity|].
  destruct (Py.digit_of c); [exact IH | reflexivity].
Qed.

Lemma zeros_digits (n : nat) : digits_only (Py.zeros n) = true.
Proof. induction n; cbn; auto. Qed.

Lemma digit_not_space (c : ascii) (d : Z) :
  Py.digit_of c = Some d -> Py.is_space c = false.
Proof.
  destruct c as [[] [] [] [] [] [] [] []]; cbn; intros H;
    try discriminate; reflexivity.
Qed.

Lemma digit_not_dash (c : ascii) (d : Z) :
  Py.digit_of c = Some d -> Ascii.eqb c "-" = false.
Proof.
  destruct c as [[] [] [] [] [] [] [] []]; cbn; intros H;
    try discriminate; reflexivity.
Qed.

Lemma rev_string_rev (s a b : string) :
  Py.rev_string (Py.rev_string s a) b = Py.rev_string a (s ++ b).
Proof.
  revert a b. induction s as [| c s IH]; intros a b; cbn; [reflexivity|].
  rewrite IH. reflexivity.
Qed.

Lemma append_nil_r (s : string) : s ++ "" = s.
Proof. induction s; cbn; congruence. Qed.

Lemma rev_string_digits (s acc : string) :
  digits_only s = true -> digits_only acc = true ->
  digits_only (Py.rev_string s acc) = true.
Proof.
  revert acc. induction s as [| c s IH]; intros acc Hs Hacc; cbn in *; [assumption|].
  destruct (Py.digit_of c) eqn:Hc; [| discriminate].
  apply IH; [assumption|]. cbn. now rewrite Hc.
Qed.

Lemma lstrip_digits (s : string) : digits_only s = true -> Py.lstrip s = s.
Proof.
  destruct s as [| c s]; cbn; [reflexivity|].
  destruct (Py.digit_of c) eqn:Hc; [| discriminate]. intros _.
  now rewrite (digit_not_space c _ Hc).
Qed.

Lemma lstrip_rev_string (s acc : string) :
  digits_only s = true -> Py.lstrip acc = acc ->
  Py.lstrip (Py.rev_string s acc) = Py.rev_string s acc.
Proof.
  revert acc. induction s as [| c s IH]; intros acc Hs Hacc; cbn in *; [assumption|].
  destruct (Py.digit_of c) eqn:Hc; [| discriminate].
  apply IH; [assumption|]. cbn. now rewrite (digit_not_space c _ Hc).
Qed.

Lemma strip_digits (s : string) : digits_only s = true -> Py.strip s = s.
Proof.
  intros Hs. unfold Py.strip. rewrite (lstrip_digits s Hs).
  rewrite lstrip_digits by (apply rev_string_digits; [assumption | reflexivity]).
  rewrite rev_string_rev. cbn. apply append_nil_r.
Qed.

Lemma int_digits (s : string) :
  digits_only s = true -> s <> "" -> Py.int s = Py.digits s 0.
Proof.
  intros Hs Hne. unfold Py.int. rewrite (strip_digits s Hs).
  destruct s as [| c r]; [contradiction|].
  cbn in Hs. destruct (Py.digit_of c) eqn:Hc; [| discriminate].
  clear Hs Hne. revert Hc.
  destruct c as [[] [] [] [] [] [] [] []]; cbn; intros Hc;
    try discriminate; reflexivity.
Qed.

Lemma unsigned_nonempty (s : string) : s <> "" -> Py.unsigned s = Py.digits s 0.
Proof. destruct s; [contradiction | reflexivity]. Qed.

Lemma to_uint_string (n : N) :
  NilZero.string_of_uint (N.to_uint n) = NilEmpty.string_of_uint (N.to_uint n)
  /\ NilEmpty.string_of_uint (N.to_uint n) <> "".
Proof.
  destruct n as [| p]; [split; [reflexivity | discriminate]|].
  cbn [N.to_uint]. pose proof (DecimalPos.Unsigned.to_uint_nonnil p) as Hn.
  destruct (Pos.to_uint p); [contradiction | ..]; split; try reflexivity;
    discriminate.
Qed.

(** [int(str(n)) == n] *)
Lemma int_str_Z (n : Z) : Py.int (Py.str_Z n) = Some n.
Proof.
  unfold Py.str_Z. destruct n as [| p | p].
  - reflexivity.
  - cbn [Z.to_int NilZero.string_of_int].
    change (Pos.to_uint p) with (N.to_uint (N.pos p)).
    destruct (to_uint_string (N.pos p)) as [-> Hne].
    rewrite int_digits by (apply string_of_uint_digits || assumption).
    apply digits_to_uint.
  - cbn [Z.to_int NilZero.string_of_int].
    change (Pos.to_uint p) with (N.to_uint (N.pos p)).
    destruct (to_uint_string (N.pos p)) as [-> Hne].
    unfold Py.int.
    assert (Hd : digits_only (NilEmpty.string_of_uint (N.to_uint (N.pos p))) = true)
      by apply string_of_uint_digits.
    assert (Hstrip : Py.strip (String "-" (NilEmpty.string_of_uint (N.to_uint (N.pos p))))
                     = String "-" (NilEmpty.string_of_uint (N.to_uint (N.pos p)))).
    { unfold Py.strip. cbn [Py.lstrip]. replace (Py.is_space "-") with false by reflexivity.
      cbn [Py.rev_string].
      rewrite lstrip_rev_string by (assumption || reflexivity).
      rewrite rev_string_rev. cbn. now rewrite append_nil_r. }
    rewrite Hstrip.
    change (option_map Z.opp
              (Py.unsigned (NilEmpty.string_of_uint (N.to_uint (N.pos p))))
            = Some (Z.neg p)).
    rewrite unsigned_nonempty, digits_to_uint by assumption. reflexivity.
Qed.

Lemma digits_zeros (k : nat) (s : string) :
  Py.digits (Py.zeros k ++ s) 0 = Py.digits s 0.
Proof. induction k; cbn; auto. Qed.

(** [int('%0.4d' % n) == n] for a sequence number. *)
Lemma int_fmt_04d (n : Z) : 0 <= n -> Py.int (Py.fmt_04d n) = Some n.
Proof.
  intros Hn. unfold Py.fmt_04d.
  replace (n <? 0) with false by (symmetry; apply Z.ltb_ge; assumption).
  destruct (to_uint_string (Z.abs_N n)) as [-> Hne].
  rewrite int_digits.
  - rewrite digits_zeros, digits_to_uint. f_equal. rewrite N2Z.inj_abs_N. lia.
  - rewrite digits_only_app, zeros_digits, string_of_uint_digits. reflexivity.
  - destruct (Py.zeros _); cbn; [assumption | discriminate].
Qed.

(** *** [assign_id]: the sequence of aliases *)

Lemma split_no_sep (sep : ascii) (s : string) :
  has_char sep s = false -> Py.split sep s = [s].
Proof.
  induction s as [| c s IH]; cbn; [reflexivity|].
  destruct (Ascii.eqb c sep); [discriminate|]. cbn. intros H.
  rewrite (IH H). reflexivity.
Qed.

Lemma split_app (sep : ascii) (a b : string) :
  has_char sep a = false ->
  Py.split sep (a ++ String sep b) = a :: Py.split sep b.
Proof.
  induction a as [| c a IH]; cbn.
  - intros _. now rewrite Ascii.eqb_refl.
  - destruct (Ascii.eqb c sep); [discriminate|]. cbn. intros H.
    rewrite (IH H). reflexivity.
Qed.

Lemma digits_no_dash (s : string) :
  digits_only s = true -> has_char "-" s = false.
Proof.
  induction s as [| c s IH]; cbn; [reflexivity|].
  destruct (Py.digit_of c) eqn:Hc; [| discriminate]. intros H.
  now rewrite (digit_not_dash c _ Hc), (IH H).
Qed.

Lemma str_Z_digits (n : Z) : 0 <= n -> digits_only (Py.str_Z n) = true.
Proof.
  intros Hn. unfold Py.str_Z. destruct n as [| p | p]; [reflexivity | | lia].
  cbn [Z.to_int NilZero.string_of_int].
  change (Pos.to_uint p) with (N.to_uint (N.pos p)).
  destruct (to_uint_string (N.pos p)) as [-> _]. apply string_of_uint_digits.
Qed.

Lemma fmt_04d_digits (n : Z) : 0 <= n -> digits_only (Py.fmt_04d n) = true.
Proof.
  intros Hn. unfold Py.fmt_04d.
  replace (n <? 0) with false by (symmetry; apply Z.ltb_ge; assumption).
  destruct (to_uint_string (Z.abs_N n)) as [-> _].
  now rewrite digits_only_app, zeros_digits, string_of_uint_digits.
Qed.

(** An alias that [assign_id] built splits back into its three fields
    when the prefix holds no dash. *)
Lemma split_alias (p : string) (year id : Z) :
  has_char "-" p = false -> 0 <= year -> 0 <= id ->
  Py.split "-" (p ++ "-" ++ Py.str_Z year ++ "-" ++ Py.fmt_04d id)
  = [p; Py.str_Z year; Py.fmt_04d id].
Proof.
  intros Hp Hy Hid.
  change (p ++ "-" ++ Py.str_Z year ++ "-" ++ Py.fmt_04d id)
    with (p ++ String "-" (Py.str_Z year ++ String "-" (Py.fmt_04d id))).
  rewrite split_app by assumption.
  rewrite split_app by (apply digits_no_dash, str_Z_digits; assumption).
  rewrite split_no_sep by (apply digits_no_dash, fmt_04d_digits; assumption).
  reflexivity.
Qed.

Lemma has_char_app (c : ascii) (a b : string) :
  has_char c (a ++ String c b) = true.
Proof.
  induction a as [| c' a IH]; cbn.
  - now rewrite Ascii.eqb_refl.
  - rewrite IH. apply orb_true_r.
Qed.

(** No alias that [assign_id] builds is the text "None". *)
Lemma new_alias_set (env : Env) (u : Update.t) (id : Z) :
  alias_set (Update.with_alias (Some (new_alias env u id)) u) = true.
Proof.
  unfold alias_set. cbn [Update.alias Update.with_alias].
  apply negb_true_iff. apply String.eqb_neq. intros H.
  assert (Hd : has_char "-" (new_alias env u id) = true)
    by (unfold new_alias; apply has_char_app).
  rewrite H in Hd. discriminate.
Qed.

(** X1: [assign_id] is idempotent: once it has returned, a second call
    returns as well and changes nothing. *)
Theorem assign_id_idempotent (env : Env) (w w1 : World) :
  assign_id env w = (Return tt, w1) ->
  assign_id env w1 = (Return tt, w1).
Proof.
  rewrite (assign_id_run env w). destruct (alias_set (self w)) eqn:Hset.
  - intros H. injection H as <-. rewrite assign_id_run, Hset. reflexivity.
  - destruct (next_id env w) as [id | e]; [| discriminate].
    intros H. injection H as <-. rewrite assign_id_run.
    cbn [self]. now rewrite new_alias_set.
Qed.

Lemma assign_id_idempotent_witness :
  assign_id ex_env (ex_world ex_update)
  = (Return tt, snd (assign_id ex_env (ex_world ex_update)))
  /\ Update.alias (self (snd (assign_id ex_env (ex_world ex_update))))
     = Some "FEDORA-2009-0001"
  /\ assign_id ex_env (snd (assign_id ex_env (ex_world ex_update)))
     = (Return tt, snd (assign_id ex_env (ex_world ex_update))).
Proof.
  assert (H : assign_id ex_env (ex_world ex_update)
              = (Return tt, snd (assign_id ex_env (ex_world ex_update))))
    by reflexivity.
  split; [exact H|]. split; [reflexivity|].
  exact (assign_id_idempotent ex_env (ex_world ex_update) _ H).
Defined.

Lemma next_id_parsed (env : Env) (w : World) (v : Update.t) (a p y s : string)
  (yy : Z) :
  last_row (query_aliased env w) = Some v ->
  Update.alias v = Some a ->
  Py.split "-" a = [p; y; s] ->
  Py.int y = Some yy ->
  next_id env w
  = if negb (yy =? localtime_year env) then Return 1
    else match Py.int s with
         | Some n => Return (n + 1)
         | None => Raise ValueError
         end.
Proof.
  intros Hlast Ha Hsplit Hy. unfold next_id.
  rewrite Hlast, Ha, Hsplit, Hy.
  destruct (negb (yy =? localtime_year env)); [reflexivity|].
  destruct (Py.int s); reflexivity.
Qed.

(** X2: The first alias: when no update of the database has an alias,
    [assign_id] returns and gives the update the sequence number 0001
    under the prefix of its release and the current year; nothing else
    changes. *)
Theorem assign_id_first (env : Env) (w : World) :
  (forall u, In u (self w :: others w) -> Update.alias u = None) ->
  assign_id env w
  = (Return tt,
     mk_World
       (Update.with_alias
          (Some (Release.id_prefix (Update.release (self w)) ++ "-"
                 ++ Py.str_Z (localtime_year env) ++ "-0001"))
          (self w))
       (others w) (cve_table w) (outbox w) (flashed w) (koji_calls w)).
Proof.
  intros Hnone. rewrite assign_id_run.
  assert (Hset : alias_set (self w) = false)
    by (unfold alias_set; rewrite (Hnone (self w)) by (now left); reflexivity).
  assert (Hq : query_aliased env w = []).
  { unfold query_aliased.
    replace (filter _ (self w :: others w)) with (@nil Update.t); [reflexivity|].
    symmetry. revert Hnone. generalize (self w :: others w).
    induction l as [| u l IH]; intros Hnone; [reflexivity|].
    cbn [filter]. rewrite (Hnone u) by (now left).
    apply IH. intros u' Hu'. apply Hnone. now right. }
  rewrite Hset. unfold next_id. rewrite Hq. reflexivity.
Qed.

Lemma assign_id_first_witness :
  (forall u, In u (self (ex_world ex_update) :: others (ex_world ex_update)) ->
             Update.alias u = None)
  /\ Update.alias (self (snd (assign_id ex_env (ex_world ex_update))))
     = Some "FEDORA-2009-0001".
Proof.
  assert (H : forall u, In u (self (ex_world ex_update)
                              :: others (ex_world ex_update)) ->
                        Update.alias u = None)
    by (intros u [<- | []]; reflexivity).
  split; [exact H|].
  rewrite (assign_id_first ex_env (ex_world ex_update) H). reflexivity.
Defined.

(** X3: The year rollover: when the update has no alias and the greatest
    alias of the database has three fields between dashes, the second one
    an integer other than the current year, [assign_id] starts again at
    0001, whatever the third field is. *)
Theorem assign_id_new_year (env : Env) (w : World) (v : Update.t)
  (a p y s : string) (yy : Z) :
  alias_set (self w) = false ->
  last_row (query_aliased env w) = Some v ->
  Update.alias v = Some a ->
  Py.split "-" a = [p; y; s] ->
  Py.int y = Some yy ->
  yy <> localtime_year env ->
  assign_id env w
  = (Return tt,
     mk_World
       (Update.with_alias
          (Some (Release.id_prefix (Update.release (self w)) ++ "-"
                 ++ Py.str_Z (localtime_year env) ++ "-0001"))
          (self w))
       (others w) (cve_table w) (outbox w) (flashed w) (koji_calls w)).
Proof.
  intros Hset Hlast Ha Hsplit Hy Hne. rewrite assign_id_run, Hset.
  rewrite (next_id_parsed env w v a p y s yy Hlast Ha Hsplit Hy).
  apply Z.eqb_neq in Hne. rewrite Hne. reflexivity.
Qed.

Lemma assign_id_new_year_witness :
  alias_set (self ex_last_year_world) = false
  /\ last_row (query_aliased ex_env ex_last_year_world)
     = Some (Update.with_alias (Some "FEDORA-2008-0123") ex_update)
  /\ Py.split "-" "FEDORA-2008-0123" = ["FEDORA"; "2008"; "0123"]
  /\ Py.int "2008" = Some 2008
  /\ 2008 <> localtime_year ex_env
  /\ Update.alias (self (snd (assign_id ex_env ex_last_year_world)))
     = Some "FEDORA-2009-0001".
Proof.
  assert (H6 : 2008 <> localtime_year ex_env) by discriminate.
  do 4 (split; [reflexivity|]). split; [exact H6|].
  rewrite (assign_id_new_year ex_env ex_last_year_world
             (Update.with_alias (Some "FEDORA-2008-0123") ex_update)
             "FEDORA-2008-0123" "FEDORA" "2008" "0123" 2008
             eq_refl eq_refl eq_refl eq_refl eq_refl H6).
  reflexivity.
Defined.

(** X4: The next alias: when the update has no alias and the greatest alias
    of the database is one that [assign_id] built in the current year
    under a prefix without a dash, with the sequence number [k],
    [assign_id] returns and gives the sequence number [k + 1], under the
    prefix of the update's own release, whatever the prefix of that
    greatest alias is. *)
Theorem assign_id_next (env : Env) (w : World) (v : Update.t) (p : string) (k : Z) :
  alias_set (self w) = false ->
  last_row (query_aliased env w) = Some v ->
  Update.alias v
  = Some (p ++ "-" ++ Py.str_Z (localtime_year env) ++ "-" ++ Py.fmt_04d k) ->
  has_char "-" p = false ->
  0 <= localtime_year env ->
  0 <= k ->
  assign_id env w
  = (Return tt,
     mk_World
       (Update.with_alias
          (Some (Release.id_prefix (Update.release (self w)) ++ "-"
                 ++ Py.str_Z (localtime_year env) ++ "-" ++ Py.fmt_04d (k + 1)))
          (self w))
       (others w) (cve_table w) (outbox w) (flashed w) (koji_calls w)).
Proof.
  intros Hset Hlast Ha Hp Hy Hk. rewrite assign_id_run, Hset.
  rewrite (next_id_parsed env w v _ p (Py.str_Z (localtime_year env))
             (Py.fmt_04d k) (localtime_year env) Hlast Ha
             (split_alias p _ k Hp Hy Hk) (int_str_Z _)).
  rewrite Z.eqb_refl, int_fmt_04d by assumption. reflexivity.
Qed.

Lemma assign_id_next_witness :
  alias_set (self ex_next_world) = false
  /\ last_row (query_aliased ex_env ex_next_world) = Some ex_rhel_update
  /\ Update.alias ex_rhel_update
     = Some ("RHEL" ++ "-" ++ Py.str_Z (localtime_year ex_env) ++ "-"
             ++ Py.fmt_04d 7)
  /\ has_char "-" "RHEL" = false
  /\ 0 <= localtime_year ex_env
  /\ 0 <= 7
  /\ Update.alias (self (snd (assign_id ex_env ex_next_world)))
     = Some "FEDORA-2009-0008".
Proof.
  assert (H5 : 0 <= localtime_year ex_env) by (cbn; lia).
  assert (H6 : 0 <= 7) by lia.
  do 4 (split; [reflexivity|]). split; [exact H5|]. split; [exact H6|].
  rewrite (assign_id_next ex_env ex_next_world ex_rhel_update "RHEL" 7
             eq_refl eq_refl eq_refl eq_refl H5 H6).
  reflexivity.
Defined.

(** *** [request_complete]: what a second call does *)

Lemma with_request_same (u : Update.t) (r : option Request) :
  Update.request u = r -> Update.with_request r u = u.
Proof. destruct u. cbn. intros ->. reflexivity. Qed.

Lemma request_complete_clears (env : Env) (w w1 : World) :
  request_complete env w = (Return tt, w1) -> Update.request (self w1) = None.
Proof.
  unfold request_complete. unfold bind at 1. unfold get_self at 1.
  unfold bind at 1.
  match goal with |- context [match ?m w with _ => _ end] =>
    destruct (m w) as [[[] | e] w'] end; [| discriminate].
  cbn. intros H. injection H as <-. reflexivity.
Qed.

(** Without a request, [request_complete] changes nothing. *)
Lemma request_complete_no_request (env : Env) (w : World) :
  Update.request (self w) = None -> request_complete env w = (Return tt, w).
Proof.
  intros Hr. unfold request_complete, bind, get_self. rewrite Hr.
  cbn [eq_request]. unfold ret, modify_self.
  rewrite (with_request_same (self w) None Hr). destruct w. reflexivity.
Qed.

(** X5: [request_complete] is idempotent: once it has returned, the request is
    none and a second call returns without changing anything (status,
    [pushed], [date_pushed] and alias stay as the first call left
    them). *)
Theorem request_complete_idempotent (env : Env) (w w1 : World) :
  request_complete env w = (Return tt, w1) ->
  Update.request (self w1) = None
  /\ request_complete env w1 = (Return tt, w1).
Proof.
  intros H. pose proof (request_complete_clears env w w1 H) as Hr.
  split; [exact Hr | exact (request_complete_no_request env w1 Hr)].
Qed.

Lemma request_complete_idempotent_witness :
  request_complete ex_env (ex_world ex_update) = (Return tt, ex_pushed_world)
  /\ Update.request (self ex_pushed_world) = None
  /\ request_complete ex_env ex_pushed_world = (Return tt, ex_pushed_world).
Proof.
  assert (H : request_complete ex_env (ex_world ex_update)
              = (Return tt, ex_pushed_world))
    by (vm_compute; reflexivity).
  split; [exact H|].
  exact (request_complete_idempotent ex_env (ex_world ex_update) ex_pushed_world H).
Defined.

Lemma request_complete_obsolete_witness :
  Update.request (self ex_obsolete_requested) = Some RObsolete
  /\ exists w',
       request_complete ex_env ex_obsolete_requested = (Return tt, w')
       /\ Update.status (self w') = SObsolete
       /\ Update.pushed (self w') = false
       /\ Update.request (self w') = None.
Proof.
  split; [reflexivity|].
  exact (request_complete_obsolete ex_env ex_obsolete_requested eq_refl).
Defined.

(** X6: [request_complete] on a request for testing or stable: whenever
    [assign_id] does not raise, it returns with the status of the request,
    [pushed] true, [date_pushed] the current time and the request
    cleared; an alias that is set stays, otherwise the update gets the
    next alias. *)
Theorem request_complete_pushes (env : Env) (w : World) (r : Request) :
  Update.request (self w) = Some r ->
  r <> RObsolete ->
  (alias_set (self w) = true
   \/ exists id, next_id env (pushed_world env r w) = Return id) ->
  exists w',
    request_complete env w = (Return tt, w')
    /\ Update.status (self w') = status_of_request r
    /\ Update.pushed (self w') = true
    /\ Update.date_pushed (self w') = Some (utcnow env)
    /\ Update.request (self w') = None
    /\ (alias_set (self w) = true -> Update.alias (self w') = Update.alias (self w))
    /\ (alias_set (self w) = false ->
        exists id, next_id env (pushed_world env r w) = Return id
                   /\ Update.alias (self w') = Some (new_alias env (self w) id)).
Proof.
  exact (request_complete_push env w r).
Qed.

Lemma request_complete_pushes_witness :
  Update.request (self (ex_world ex_update)) = Some RTesting
  /\ RTesting <> RObsolete
  /\ (exists id, next_id ex_env (pushed_world ex_env RTesting (ex_world ex_update))
                 = Return id)
  /\ exists w',
       request_complete ex_env (ex_world ex_update) = (Return tt, w')
       /\ Update.status (self w') = STesting
       /\ Update.pushed (self w') = true
       /\ Update.date_pushed (self w') = Some (utcnow ex_env)
       /\ Update.request (self w') = None
       /\ Update.alias (self w') = Some "FEDORA-2009-0001".
Proof.
  assert (H2 : RTesting <> RObsolete) by discriminate.
  assert (H3 : exists id, next_id ex_env
                            (pushed_world ex_env RTesting (ex_world ex_update))
                          = Return id) by (exists 1; reflexivity).
  split; [reflexivity|]. split; [exact H2|]. split; [exact H3|].
  destruct (request_complete_pushes ex_env (ex_world ex_update) RTesting
              eq_refl H2 (or_intror H3))
    as (w' & Hrun & Hst & Hp & Hd & Hr & _ & Hnew).
  exists w'. repeat (split; [assumption|]).
  destruct (Hnew eq_refl) as (id & Hid & Ha). rewrite Ha.
  replace id with 1 by (cbv in Hid; congruence). reflexivity.
Defined.

(** *** [untag], [unpush] and [obsolete] *)

Lemma for_koji {A} (f : A -> KojiCall) (body : A -> M unit) (l : list A)
  (w : World) :
  (forall x, body x = koji (f x)) ->
  for_ l body w = (Return tt, koji_called (map f l) w).
Proof.
  intros Hbody. revert w. induction l as [| x l IH]; intros w.
  - cbn. unfold ret, koji_called. rewrite app_nil_r. destruct w. reflexivity.
  - cbn [for_ map]. unfold bind. rewrite Hbody. cbn [koji].
    rewrite IH. unfold koji_called. cbn. now rewrite <- app_assoc.
Qed.

(** [untag] asks koji to remove the tag of the current status from every
    build, in order, sets [pushed] to false and changes nothing else: the
    status stays. *)
Lemma untag_effect (w : World) :
  untag w
  = (Return tt,
     with_self (Update.with_pushed false (self w))
       (koji_called (untag_calls (self w)) w)).
Proof.
  unfold untag. unfold bind at 1. unfold get_self at 1. unfold bind at 1.
  rewrite (for_koji (fun build => UntagBuild (get_build_tag (self w))
                                    (Build.nvr build)))
    by reflexivity.
  reflexivity.
Qed.

Lemma rev_string_app (a b acc : string) :
  Py.rev_string (a ++ b) acc = Py.rev_string b (Py.rev_string a acc).
Proof.
  revert acc. induction a as [| c a IH]; intros acc; cbn; [reflexivity|].
  apply IH.
Qed.

(** The test of [unpush] on the current tag holds exactly for the
    statuses pending and obsolete, whatever the [dist_tag] is. *)
Lemma endswith_candidate (u : Update.t) :
  Py.endswith (get_build_tag u) "-updates-candidate"
  = is_candidate (Update.status u).
Proof.
  rewrite get_build_tag_cases. unfold Py.endswith.
  destruct (Update.status u); rewrite !rev_string_app; cbn;
    try reflexivity; destruct (Py.rev_string _ ""); reflexivity.
Qed.

(** The state that [unpush] leaves. *)
Lemma unpush_world (w : World) :
  unpush w
  = (Return tt, if is_candidate (Update.status (self w)) then w else unpushed w).
Proof.
  unfold unpush. unfold bind at 1. unfold get_self at 1.
  rewrite endswith_candidate.
  destruct (is_candidate (Update.status (self w))); [reflexivity|].
  unfold bind at 1.
  rewrite (for_koji
             (fun build =>
                if Build.inherited build then
                  UntagBuild (get_build_tag (self w)) (Build.nvr build)
                else
                  MoveBuild (get_build_tag (self w))
                    (Release.dist_tag (Update.release (self w))
                     ++ "-updates-candidate")
                    (Build.nvr build)))
    by (intros x; destruct (Build.inherited x); reflexivity).
  reflexivity.
Qed.

(** X7: whenever [unpush] returns, this is the state it leaves.  On an
    update that is pending or obsolete, nothing has happened (no call to
    koji, no mail).  On any other status every build was moved from the
    current tag to the candidate tag, or only untagged when it got the tag
    by inheritance, [pushed] is false, the status is pending and one mail
    went to the administrators; the request and [date_pushed] are as
    before. *)
Theorem unpush_effect (w w' : World) :
  unpush w = (Return tt, w') ->
  w' = if is_candidate (Update.status (self w)) then w else unpushed w.
Proof.
  rewrite (unpush_world w). intros H. injection H as <-. reflexivity.
Qed.

Lemma unpush_effect_witness :
  unpush ex_testing_world = (Return tt, snd (unpush ex_testing_world))
  /\ snd (unpush ex_testing_world)
     = (if is_candidate (Update.status (self ex_testing_world))
        then ex_testing_world else unpushed ex_testing_world)
  /\ Update.status (self (snd (unpush ex_testing_world))) = SPending
  /\ koji_calls (snd (unpush ex_testing_world))
     = [MoveBuild "dist-f9-updates-testing" "dist-f9-updates-candidate"
          "kernel-2.6.0-1.fc9";
        UntagBuild "dist-f9-updates-testing" "kernel-doc-2.6.0-1.fc9"]
  /\ outbox (snd (unpush ex_testing_world)) = [SendAdmin "unpushed"].
Proof.
  assert (H : unpush ex_testing_world
              = (Return tt, snd (unpush ex_testing_world)))
    by (vm_compute; reflexivity).
  split; [exact H|].
  split; [exact (unpush_effect ex_testing_world _ H)|].
  repeat split.
Defined.

(** X8: [unpush] is idempotent: run on the state that it left, it changes
    nothing. *)
Theorem unpush_idempotent (w : World) :
  unpush (snd (unpush w)) = (Return tt, snd (unpush w)).
Proof.
  rewrite (unpush_world w). cbn [snd].
  destruct (is_candidate (Update.status (self w))) eqn:Hc.
  - rewrite unpush_world, Hc. reflexivity.
  - rewrite unpush_world. reflexivity.
Qed.

(** A comment that does not count for karma: the state it leaves. *)
Lemma comment_silent_world (env : Env) (fuel : nat) (text : string) (karma : Z)
  (author : option string) (anonymous : bool) (w : World) :
  karma_counts (effective_author env author) karma anonymous (self w) = false ->
  comment env (S fuel) text karma author anonymous w
  = (Return tt,
     said (Comment.mk (effective_author env author) karma text anonymous) w).
Proof.
  intros Hc. cbn [comment]. unfold karma_counts in Hc.
  unfold bind at 1. unfold get_self at 1. rewrite Hc. reflexivity.
Qed.

(** The state that [obsolete] leaves. *)
Lemma obsolete_world (env : Env) (fuel : nat) (newer : option string)
  (w : World) :
  obsolete env (S fuel) newer w = (Return tt, obsoleted_world newer w).
Proof.
  unfold obsolete, obsolete_with, obsoleted_world.
  unfold bind at 1. rewrite untag_effect.
  unfold bind at 1. cbn [modify_self]. unfold bind at 1. cbn [modify_self].
  unfold bind at 1.
  destruct (truthy newer); rewrite comment_silent_world by reflexivity;
    reflexivity.
Qed.

(** X9: whenever [obsolete] returns, every build was untagged from the
    tag of the status that the update had, [pushed] is false, the status
    is obsolete, the request is none, and one comment of the author
    "bodhi" with karma 0 was appended, which changed no karma; the notice
    about that comment was mailed. *)
Theorem obsolete_effect (env : Env) (fuel : nat) (newer : option string)
  (w w' : World) :
  obsolete env (S fuel) newer w = (Return tt, w') ->
  w' = obsoleted_world newer w.
Proof.
  rewrite (obsolete_world env fuel newer w). intros H. injection H as <-.
  reflexivity.
Qed.

Lemma obsolete_effect_witness :
  obsolete ex_env 1 None ex_testing_world
  = (Return tt, snd (obsolete ex_env 1 None ex_testing_world))
  /\ snd (obsolete ex_env 1 None ex_testing_world)
     = obsoleted_world None ex_testing_world
  /\ Update.status (self (snd (obsolete ex_env 1 None ex_testing_world)))
     = SObsolete
  /\ Update.comments (self (snd (obsolete ex_env 1 None ex_testing_world)))
     = [Comment.mk "bodhi" 0 "This update has been obsoleted" false]
  /\ koji_calls (snd (obsolete ex_env 1 None ex_testing_world))
     = [UntagBuild "dist-f9-updates-testing" "kernel-2.6.0-1.fc9";
        UntagBuild "dist-f9-updates-testing" "kernel-doc-2.6.0-1.fc9"].
Proof.
  assert (H : obsolete ex_env 1 None ex_testing_world
              = (Return tt, snd (obsolete ex_env 1 None ex_testing_world)))
    by (vm_compute; reflexivity).
  split; [exact H|].
  split; [exact (obsolete_effect ex_env 0 None ex_testing_world _ H)|].
  repeat split.
Defined.

(** *** [set_request]: the other branches *)

(** The two refusals at the head of [set_request]. *)
Lemma set_request_refusals (env : Env) (fuel : nat) (action : string)
  (pathcheck : bool) (w : World) :
  (authorized_user env (self w) = false ->
   set_request env fuel action pathcheck w
   = (Raise (InvalidRequest
               ("Unauthorized to perform action on " ++ Update.title (self w))),
      w))
  /\ (authorized_user env (self w) = true ->
      Py.in_ action ["testing"; "stable"; "obsolete"; "unpush"] = false ->
      set_request env fuel action pathcheck w
      = (Raise (InvalidRequest ("Unknown request: " ++ action)), w)).
Proof.
  unfold set_request, bind, get_self. split.
  - intros ->. reflexivity.
  - intros -> ->. reflexivity.
Qed.

(** X10: The first two validations of [set_request]: a caller who is not
    authorized gets [InvalidRequest] whatever the action is, and an
    authorized caller gets it for an action outside testing, stable,
    obsolete and unpush; the state is untouched. *)
Theorem set_request_rejects (env : Env) (fuel : nat) (action : string)
  (pathcheck : bool) (w : World) :
  (authorized_user env (self w) = false ->
   set_request env fuel action pathcheck w
   = (Raise (InvalidRequest
               ("Unauthorized to perform action on " ++ Update.title (self w))),
      w))
  /\ (authorized_user env (self w) = true ->
      Py.in_ action ["testing"; "stable"; "obsolete"; "unpush"] = false ->
      set_request env fuel action pathcheck w
      = (Raise (InvalidRequest ("Unknown request: " ++ action)), w)).
Proof.
  exact (set_request_refusals env fuel action pathcheck w).
Qed.

Lemma set_request_rejects_witness :
  authorized_user ex_env (self (ex_world ex_update)) = true
  /\ Py.in_ "revoke" ["testing"; "stable"; "obsolete"; "unpush"] = false
  /\ set_request ex_env 2 "revoke" true (ex_world ex_update)
     = (Raise (InvalidRequest "Unknown request: revoke"), ex_world ex_update).
Proof.
  do 2 (split; [reflexivity|]).
  exact (proj2 (set_request_rejects ex_env 2 "revoke" true (ex_world ex_update))
           eq_refl eq_refl).
Defined.

(** X11: an authorized request for testing or for stable that differs
    from the status and from the request of the update is never recorded:
    [set_request] reads [self.type], which class [Update] does not have
    (its column is [type_]), and raises [AttributeError], with or without
    the path check; the state is untouched. *)
Theorem set_request_push_attribute_error (env : Env) (fuel : nat)
  (action : string) (pathcheck : bool) (w : World) :
  authorized_user env (self w) = true ->
  action = "testing" \/ action = "stable" ->
  action <> status_name (Update.status (self w)) ->
  Some action <> option_map request_name (Update.request (self w)) ->
  set_request env fuel action pathcheck w = (Raise (AttributeError "type"), w).
Proof.
  intros Hauth Ha Hst Hrq. apply set_request_push; try assumption.
  - now apply String.eqb_neq.
  - destruct (Update.request (self w)) as [r |]; [| reflexivity].
    cbn [eq_request]. apply String.eqb_neq. intros E. apply Hrq. cbn.
    now rewrite E.
Qed.

Lemma set_request_push_attribute_error_witness :
  authorized_user ex_env (self (ex_world ex_update)) = true
  /\ "stable" <> status_name (Update.status (self (ex_world ex_update)))
  /\ Some "stable"
     <> option_map request_name (Update.request (self (ex_world ex_update)))
  /\ set_request ex_env 2 "stable" false (ex_world ex_update)
     = (Raise (AttributeError "type"), ex_world ex_update).
Proof.
  assert (H1 : "stable" <> status_name (Update.status (self (ex_world ex_update))))
    by discriminate.
  assert (H2 : Some "stable"
               <> option_map request_name
                    (Update.request (self (ex_world ex_update))))
    by discriminate.
  split; [reflexivity|]. split; [exact H1|]. split; [exact H2|].
  exact (set_request_push_attribute_error ex_env 2 "stable" false
           (ex_world ex_update) eq_refl (or_intror eq_refl) H1 H2).
Defined.

(** The state that the action unpush leaves. *)
Lemma set_request_unpush_world (env : Env) (fuel : nat) (pathcheck : bool)
  (w : World) :
  authorized_user env (self w) = true ->
  set_request env (S fuel) "unpush" pathcheck w
  = (Return tt,
     flash_logged (Update.title (self w) ++ " has been unpushed")
       (said (Comment.mk (user_name env) 0 "This update has been unpushed" false)
          (if is_candidate (Update.status (self w)) then w else unpushed w))).
Proof.
  intros Hauth. unfold set_request. unfold bind at 1. unfold get_self at 1.
  rewrite Hauth. cbn [negb].
  replace (Py.in_ "unpush" ["testing"; "stable"; "obsolete"; "unpush"])
    with true by reflexivity. cbn [negb].
  replace ("unpush" =? status_name (Update.status (self w)))%string with false
    by (destruct (Update.status (self w)); reflexivity).
  replace (eq_request "unpush" (Update.request (self w))) with false
    by (destruct (Update.request (self w)) as [[]|]; reflexivity).
  replace ("unpush" =? "unpush")%string with true by reflexivity.
  unfold bind at 1. rewrite unpush_world. unfold bind at 1.
  rewrite comment_silent_world by reflexivity.
  rewrite effective_author_user. reflexivity.
Qed.

(** X12: whenever an authorized [set_request] for unpush returns, it ran
    [unpush] (which does nothing on a pending or obsolete update),
    appended the comment of the caller with karma 0 and logged the
    message; the request of the update is as before. *)
Theorem set_request_unpush_effect (env : Env) (fuel : nat) (pathcheck : bool)
  (w w' : World) :
  authorized_user env (self w) = true ->
  set_request env (S fuel) "unpush" pathcheck w = (Return tt, w') ->
  w' = flash_logged (Update.title (self w) ++ " has been unpushed")
         (said (Comment.mk (user_name env) 0 "This update has been unpushed" false)
            (if is_candidate (Update.status (self w)) then w else unpushed w)).
Proof.
  intros Hauth. rewrite (set_request_unpush_world env fuel pathcheck w Hauth).
  intros H. injection H as <-. reflexivity.
Qed.

Lemma set_request_unpush_effect_witness :
  authorized_user ex_env (self ex_testing_world) = true
  /\ set_request ex_env 1 "unpush" true ex_testing_world
     = (Return tt, snd (set_request ex_env 1 "unpush" true ex_testing_world))
  /\ snd (set_request ex_env 1 "unpush" true ex_testing_world)
     = flash_logged (Update.title (self ex_testing_world) ++ " has been unpushed")
         (said (Comment.mk "lmacken" 0 "This update has been unpushed" false)
            (unpushed ex_testing_world))
  /\ Update.status (self (snd (set_request ex_env 1 "unpush" true ex_testing_world)))
     = SPending
  /\ Update.request (self (snd (set_request ex_env 1 "unpush" true ex_testing_world)))
     = Update.request (self ex_testing_world).
Proof.
  assert (H : set_request ex_env 1 "unpush" true ex_testing_world
              = (Return tt, snd (set_request ex_env 1 "unpush" true ex_testing_world)))
    by (vm_compute; reflexivity).
  split; [reflexivity|]. split; [exact H|].
  split; [exact (set_request_unpush_effect ex_env 0 true ex_testing_world _
                   eq_refl H)|].
  split; reflexivity.
Defined.

(** The state that the action obsolete leaves. *)
Lemma set_request_obsolete_world (env : Env) (fuel : nat) (pathcheck : bool)
  (w : World) :
  authorized_user env (self w) = true ->
  Update.status (self w) <> SObsolete ->
  Update.request (self w) <> Some RObsolete ->
  set_request env (S fuel) "obsolete" pathcheck w
  = (Return tt,
     flash_logged (Update.title (self w) ++ " has been obsoleted")
       (obsoleted_world None w)).
Proof.
  intros Hauth Hst Hrq. unfold set_request. unfold bind at 1. unfold get_self at 1.
  rewrite Hauth. cbn [negb].
  replace (Py.in_ "obsolete" ["testing"; "stable"; "obsolete"; "unpush"])
    with true by reflexivity. cbn [negb].
  replace ("obsolete" =? status_name (Update.status (self w)))%string with false
    by (destruct (Update.status (self w)); reflexivity || congruence).
  replace (eq_request "obsolete" (Update.request (self w))) with false
    by (destruct (Update.request (self w)) as [[]|]; reflexivity || congruence).
  replace ("obsolete" =? "unpush")%string with false by reflexivity.
  replace ("obsolete" =? "obsolete")%string with true by reflexivity.
  unfold bind at 1. rewrite obsolete_world. reflexivity.
Qed.

(** X13: whenever an authorized [set_request] for obsolete returns, on an
    update whose status and request are not obsolete, the update is
    obsoleted (every build untagged from the tag of the former status,
    [pushed] false, status obsolete, request none, one comment of "bodhi"
    appended) and the message is logged; no comment is added in the name
    of the caller, and the request is never set to obsolete. *)
Theorem set_request_obsolete_effect (env : Env) (fuel : nat) (pathcheck : bool)
  (w w' : World) :
  authorized_user env (self w) = true ->
  Update.status (self w) <> SObsolete ->
  Update.request (self w) <> Some RObsolete ->
  set_request env (S fuel) "obsolete" pathcheck w = (Return tt, w') ->
  w' = flash_logged (Update.title (self w) ++ " has been obsoleted")
         (obsoleted_world None w).
Proof.
  intros Hauth Hst Hrq.
  rewrite (set_request_obsolete_world env fuel pathcheck w Hauth Hst Hrq).
  intros H. injection H as <-. reflexivity.
Qed.

Lemma set_request_obsolete_effect_witness :
  authorized_user ex_env (self ex_testing_world) = true
  /\ Update.status (self ex_testing_world) <> SObsolete
  /\ Update.request (self ex_testing_world) <> Some RObsolete
  /\ set_request ex_env 1 "obsolete" true ex_testing_world
     = (Return tt, snd (set_request ex_env 1 "obsolete" true ex_testing_world))
  /\ snd (set_request ex_env 1 "obsolete" true ex_testing_world)
     = flash_logged (Update.title (self ex_testing_world) ++ " has been obsoleted")
         (obsoleted_world None ex_testing_world)
  /\ Update.status (self (snd (set_request ex_env 1 "obsolete" true
                                ex_testing_world))) = SObsolete
  /\ Update.request (self (snd (set_request ex_env 1 "obsolete" true
                                 ex_testing_world))) = None.
Proof.
  assert (H2 : Update.status (self ex_testing_world) <> SObsolete) by discriminate.
  assert (H3 : Update.request (self ex_testing_world) <> Some RObsolete)
    by discriminate.
  assert (H : set_request ex_env 1 "obsolete" true ex_testing_world
              = (Return tt, snd (set_request ex_env 1 "obsolete" true
                                   ex_testing_world))) by (vm_compute; reflexivity).
  split; [reflexivity|]. split; [exact H2|]. split; [exact H3|].
  split; [exact H|].
  split; [exact (set_request_obsolete_effect ex_env 0 true ex_testing_world _
                   eq_refl H2 H3 H)|].
  split; reflexivity.
Defined.

(** X14: [set_request] cannot record a request for testing or for
    stable.  Whoever calls it, on whatever update, with or without the
    path check, the call raises, either the [InvalidRequest] of one of the
    four validations or the [AttributeError] of the read of [self.type],
    and the state is untouched: no koji call, no mail, no comment. *)
Theorem set_request_push_never_returns (env : Env) (fuel : nat)
  (action : string) (pathcheck : bool) (w : World) :
  action = "testing" \/ action = "stable" ->
  exists e,
    set_request env fuel action pathcheck w = (Raise e, w)
    /\ (e = AttributeError "type" \/ exists msg, e = InvalidRequest msg).
Proof.
  intros Ha.
  destruct (authorized_user env (self w)) eqn:Hauth.
  2: { destruct (set_request_validation env fuel action pathcheck w
                   (or_introl Hauth)) as (msg & H).
       exists (InvalidRequest msg). split; [exact H | right; now exists msg]. }
  destruct (action =? status_name (Update.status (self w)))%string eqn:Hst.
  { destruct (set_request_validation env fuel action pathcheck w
                (or_intror (or_intror (or_introl Hst)))) as (msg & H).
    exists (InvalidRequest msg). split; [exact H | right; now exists msg]. }
  destruct (eq_request action (Update.request (self w))) eqn:Hrq.
  { destruct (set_request_validation env fuel action pathcheck w
                (or_intror (or_intror (or_intror Hrq)))) as (msg & H).
    exists (InvalidRequest msg). split; [exact H | right; now exists msg]. }
  exists (AttributeError "type"). split; [| now left].
  now apply set_request_push.
Qed.

Lemma set_request_push_never_returns_witness :
  exists e,
    set_request ex_env 2 "testing" true ex_idle = (Raise e, ex_idle)
    /\ (e = AttributeError "type" \/ exists msg, e = InvalidRequest msg).
Proof.
  exact (set_request_push_never_returns ex_env 2 "testing" true ex_idle
           (or_introl eq_refl)).
Defined.

(** X15: Once [set_request] has returned for an action other than unpush, the
    same action is refused with [InvalidRequest], with or without the
    path check, and the refusal changes nothing. *)
Theorem set_request_repeated (env : Env) (fuel fuel' : nat) (action : string)
  (pathcheck pathcheck' : bool) (w w' : World) :
  set_request env (S fuel) action pathcheck w = (Return tt, w') ->
  action <> "unpush" ->
  exists msg,
    set_request env fuel' action pathcheck' w' = (Raise (InvalidRequest msg), w').
Proof.
  exact (set_request_twice env fuel fuel' action pathcheck pathcheck' w w').
Qed.

Lemma set_request_repeated_witness :
  set_request ex_env 1 "obsolete" true ex_testing_world
  = (Return tt, snd (set_request ex_env 1 "obsolete" true ex_testing_world))
  /\ "obsolete" <> "unpush"
  /\ exists msg,
       set_request ex_env 1 "obsolete" false
         (snd (set_request ex_env 1 "obsolete" true ex_testing_world))
       = (Raise (InvalidRequest msg),
          snd (set_request ex_env 1 "obsolete" true ex_testing_world)).
Proof.
  assert (H1 : set_request ex_env 1 "obsolete" true ex_testing_world
               = (Return tt,
                  snd (set_request ex_env 1 "obsolete" true ex_testing_world)))
    by (vm_compute; reflexivity).
  assert (H2 : "obsolete" <> "unpush") by discriminate.
  split; [exact H1|]. split; [exact H2|].
  exact (set_request_repeated ex_env 0 1 "obsolete" true false ex_testing_world
           _ H1 H2).
Defined.

(** *** [comment]: what always holds *)

(** The state that a comment without a vote leaves. *)
Lemma comment_only_appended (env : Env) (fuel : nat) (text : string) (karma : Z)
  (author : option string) (anonymous : bool) (w : World) :
  anonymous = true \/ karma = 0
  \/ has_voted (self w) (effective_author env author) karma ->
  comment env (S fuel) text karma author anonymous w
  = (Return tt,
     said (Comment.mk (effective_author env author) karma text anonymous) w).
Proof.
  intros H. apply comment_silent_world.
  destruct (karma_counts (effective_author env author) karma anonymous (self w))
    eqn:Hc; [| reflexivity].
  apply karma_counts_iff in Hc. destruct Hc as (Ha & Hk & Hv).
  destruct H as [H | [H | H]]; [congruence | contradiction | contradiction].
Qed.

(** X16: A comment that is anonymous, or has karma 0, or repeats a recorded
    (author, karma) pair is only appended: [comment] returns, the new
    comment is the last one, one notice is mailed, and karma, request,
    status, [pushed] and [date_pushed] stay as they were. *)
Theorem comment_no_count (env : Env) (fuel : nat) (text : string) (karma : Z)
  (author : option string) (anonymous : bool) (w : World) :
  anonymous = true \/ karma = 0
  \/ has_voted (self w) (effective_author env author) karma ->
  comment env (S fuel) text karma author anonymous w
  = (Return tt,
     said (Comment.mk (effective_author env author) karma text anonymous) w).
Proof.
  exact (comment_only_appended env fuel text karma author anonymous w).
Qed.

Lemma comment_no_count_witness :
  (true = true \/ 1 = 0
   \/ has_voted (self (ex_world ex_update)) (effective_author ex_env None) 1)
  /\ Update.karma (self (snd (comment ex_env 1 "works" 1 None true
                               (ex_world ex_update)))) = 0
  /\ Update.comments (self (snd (comment ex_env 1 "works" 1 None true
                                  (ex_world ex_update))))
     = [Comment.mk "lmacken" 1 "works" true].
Proof.
  assert (H : true = true \/ 1 = 0
              \/ has_voted (self (ex_world ex_update))
                   (effective_author ex_env None) 1) by (now left).
  split; [exact H|].
  rewrite (comment_no_count ex_env 0 "works" 1 None true (ex_world ex_update) H).
  split; reflexivity.
Defined.

(** A comment that returned did not count for karma, and it is the last
    comment of the update. *)
Lemma comment_returned (env : Env) (fuel : nat) (text : string) (karma : Z)
  (author : option string) (anonymous : bool) (w w1 : World) :
  comment env (S fuel) text karma author anonymous w = (Return tt, w1) ->
  karma_counts (effective_author env author) karma anonymous (self w) = false
  /\ w1 = said (Comment.mk (effective_author env author) karma text anonymous) w.
Proof.
  intros Hrun.
  destruct (karma_counts (effective_author env author) karma anonymous (self w))
    eqn:Hc.
  - rewrite (comment_counted env fuel text karma author anonymous w Hc) in Hrun.
    discriminate.
  - rewrite (comment_silent_world env fuel text karma author anonymous w Hc)
      in Hrun.
    injection Hrun as <-. split; reflexivity.
Qed.

(** X17: A vote cannot be repeated: after any comment, a further comment of
    the same author with the same karma is only appended, whether or not
    the first one counted.  In particular an anonymous comment under a
    name keeps a later comment of that name with the same karma from
    counting. *)
Theorem comment_repeat (env : Env) (fuel fuel' : nat) (text text' : string)
  (karma : Z) (author : option string) (anonymous anonymous' : bool)
  (w w1 : World) :
  comment env (S (S fuel)) text karma author anonymous w = (Return tt, w1) ->
  comment env (S fuel') text' karma author anonymous' w1
  = (Return tt,
     said (Comment.mk (effective_author env author) karma text' anonymous') w1).
Proof.
  intros Hrun. apply comment_only_appended. right. right.
  destruct (comment_returned env (S fuel) text karma author anonymous w w1 Hrun)
    as [_ ->].
  exists (Comment.mk (effective_author env author) karma text anonymous).
  split; [| split; reflexivity].
  cbn. apply in_or_app. right. now left.
Qed.

Lemma comment_repeat_witness :
  comment ex_env 2 "works" 1 (Some "bob") true (ex_world ex_update)
  = (Return tt,
     said (Comment.mk "bob" 1 "works" true) (ex_world ex_update))
  /\ Update.karma
       (self (snd (comment ex_env 1 "works, logged in" 1 (Some "bob") false
                     (said (Comment.mk "bob" 1 "works" true)
                        (ex_world ex_update))))) = 0.
Proof.
  assert (H : comment ex_env 2 "works" 1 (Some "bob") true (ex_world ex_update)
              = (Return tt,
                 said (Comment.mk "bob" 1 "works" true) (ex_world ex_update)))
    by reflexivity.
  split; [exact H|].
  rewrite (comment_repeat ex_env 0 0 "works" "works, logged in" 1 (Some "bob")
             true false (ex_world ex_update) _ H).
  reflexivity.
Defined.

(** X18: a vote is never recorded.  A comment that is not anonymous, with
    a karma other than 0 that its author has not given before, adds its
    karma to the total (2 or -2 where it reverses an earlier vote of the
    author) and then raises [AttributeError] at the read of
    [self.stable_karma], which class [Update] does not have: the comment
    is not appended, no notice is sent, and request, status and [pushed]
    are as before.  Whatever the outcome, a comment with karma -1, 0 or 1
    moves the total by at most 2. *)
Theorem comment_vote_attribute_error (env : Env) (fuel : nat) (text : string)
  (karma : Z) (author : option string) (w : World) :
  karma <> 0 ->
  ~ has_voted (self w) (effective_author env author) karma ->
  comment env (S fuel) text karma author false w
  = (Raise (AttributeError "stable_karma"),
     karma_adjusted (effective_author env author) karma w)
  /\ (-1 <= karma <= 1 ->
      Z.abs (Update.karma
               (self (karma_adjusted (effective_author env author) karma w))
             - Update.karma (self w)) <= 2).
Proof.
  intros Hk Hnv. split.
  - apply comment_counted. apply karma_counts_iff. repeat split; assumption.
  - intros Hr. unfold karma_adjusted, with_self, adjusted_karma. cbn.
    destruct ((karma =? 1) && _); [lia|].
    destruct ((karma =? -1) && _); lia.
Qed.

Lemma comment_vote_attribute_error_witness :
  1 <> 0
  /\ ~ has_voted (self (ex_world ex_update)) (effective_author ex_env (Some "bob")) 1
  /\ comment ex_env 1 "works for me" 1 (Some "bob") false (ex_world ex_update)
     = (Raise (AttributeError "stable_karma"),
        ex_world (Update.with_karma 1 ex_update)).
Proof.
  assert (H1 : 1 <> 0) by discriminate.
  assert (H2 : ~ has_voted (self (ex_world ex_update))
                   (effective_author ex_env (Some "bob")) 1)
    by (intros (c & [] & _)).
  split; [exact H1|]. split; [exact H2|].
  exact (proj1 (comment_vote_attribute_error ex_env 0 "works for me" 1
                  (Some "bob") (ex_world ex_update) H1 H2)).
Defined.

(** X19: [status_comment] writes nothing for a pending or unpushed update; for
    the statuses stable, testing and obsolete it appends one comment of
    "bodhi" with karma 0, which leaves karma, request and status alone. *)
Theorem status_comment_effect (env : Env) (fuel : nat) (w : World) :
  status_comment env (S fuel) w
  = (Return tt,
     match Update.status (self w) with
     | SStable =>
         said (Comment.mk "bodhi" 0 "This update has been pushed to stable" false) w
     | STesting =>
         said (Comment.mk "bodhi" 0 "This update has been pushed to testing" false) w
     | SObsolete =>
         said (Comment.mk "bodhi" 0 "This update has been obsoleted" false) w
     | SPending | SUnpushed => w
     end).
Proof.
  unfold status_comment. unfold bind. unfold get_self.
  destruct (Update.status (self w)); cbn [status_name String.eqb Ascii.eqb Bool.eqb];
    try reflexivity; rewrite comment_silent_world by reflexivity; reflexivity.
Qed.

(** *** [get_maintainers] and the people of a comment *)

Lemma in__In (x : string) (s : list string) : Py.in_ x s = true <-> In x s.
Proof.
  unfold Py.in_. rewrite existsb_exists. split.
  - intros (y & Hin & Heq). apply String.eqb_eq in Heq. now subst.
  - intros Hin. exists x. split; [assumption | apply String.eqb_refl].
Qed.

Lemma set_add_In (x y : string) (s : list string) :
  In x (Py.set_add y s) <-> x = y \/ In x s.
Proof.
  unfold Py.set_add. destruct (Py.in_ y s) eqn:Hy.
  - apply in__In in Hy. split; [auto | intros [-> | H]; assumption].
  - rewrite in_app_iff. cbn. intuition congruence.
Qed.

Lemma set_add_NoDup (y : string) (s : list string) :
  NoDup s -> NoDup (Py.set_add y s).
Proof.
  intros Hs. unfold Py.set_add. destruct (Py.in_ y s) eqn:Hy; [assumption|].
  assert (Hn : ~ In y s) by (intros H; apply in__In in H; congruence).
  clear Hy. induction Hs as [| a s Ha Hs IH]; cbn.
  - constructor; [intros [] | constructor].
  - constructor.
    + rewrite in_app_iff. cbn. intros [H | [H | []]]; [contradiction|].
      apply Hn. now left.
    + apply IH. intros H. apply Hn. now right.
Qed.

Lemma fold_set_add (l s : list string) :
  NoDup s ->
  NoDup (fold_left (fun people x => Py.set_add x people) l s)
  /\ forall p, In p (fold_left (fun people x => Py.set_add x people) l s)
               <-> In p l \/ In p s.
Proof.
  revert s. induction l as [| x l IH]; intros s Hs; cbn [fold_left].
  - split; [assumption | intros p; cbn; tauto].
  - destruct (IH (Py.set_add x s) (set_add_NoDup x s Hs)) as [Hnd Hin].
    split; [assumption|]. intros p. rewrite Hin, set_add_In. cbn. intuition.
Qed.

Lemma maintainers_fold (builds : list Build.t) (s : list string) :
  NoDup s ->
  let r := fold_left
             (fun people build =>
                match Package.committers (Build.package build) with
                | Some committers =>
                    fold_left (fun people committer => Py.set_add committer people)
                      committers people
                | None => people
                end) builds s in
  NoDup r
  /\ forall p, In p r
               <-> (exists build cs,
                      In build builds
                      /\ Package.committers (Build.package build) = Some cs
                      /\ In p cs)
                   \/ In p s.
Proof.
  revert s. induction builds as [| b builds IH]; intros s Hs; cbn [fold_left].
  - cbv zeta. split; [assumption|]. intros p. split; [auto|].
    intros [(b & cs & [] & _) | H]; assumption.
  - cbv zeta.
    destruct (Package.committers (Build.package b)) as [cs |] eqn:Hcs.
    + destruct (fold_set_add cs s Hs) as [Hnd Hin].
      destruct (IH _ Hnd) as [Hnd' Hin']. cbv zeta in Hnd', Hin'.
      split; [assumption|]. intros p. rewrite Hin', Hin. split.
      * intros [(b' & cs' & Hb' & Hcs' & Hp) | [Hp | Hp]].
        -- left. exists b', cs'. auto with datatypes.
        -- left. exists b, cs. auto with datatypes.
        -- now right.
      * intros [(b' & cs' & [<- | Hb'] & Hcs' & Hp) | Hp].
        -- right. left. congruence.
        -- left. exists b', cs'. auto.
        -- right. now right.
    + destruct (IH s Hs) as [Hnd' Hin']. cbv zeta in Hnd', Hin'.
      split; [assumption|]. intros p. rewrite Hin'. split.
      * intros [(b' & cs' & Hb' & Hcs' & Hp) | Hp]; [| now right].
        left. exists b', cs'. auto with datatypes.
      * intros [(b' & cs' & [<- | Hb'] & Hcs' & Hp) | Hp];
          [congruence | | now right].
        left. exists b', cs'. auto.
Qed.

(** X20: [get_maintainers] lists every committer of the package of a build of
    the update, each one once, and nobody else. *)
Theorem get_maintainers_spec (u : Update.t) :
  NoDup (get_maintainers u)
  /\ forall p,
       In p (get_maintainers u)
       <-> exists build cs,
             In build (Update.builds u)
             /\ Package.committers (Build.package build) = Some cs
             /\ In p cs.
Proof.
  destruct (maintainers_fold (Update.builds u) [] (NoDup_nil _)) as [Hnd Hin].
  cbv zeta in Hnd, Hin. split; [exact Hnd|].
  intros p. unfold get_maintainers. rewrite Hin. cbn. tauto.
Qed.

(** X21: The notice about a comment goes, once each, to the maintainers of the
    update and to the authors of its comments that are neither anonymous
    nor written by "bodhi", and to nobody else. *)
Theorem comment_people_spec (u : Update.t) :
  NoDup (comment_people u)
  /\ forall p,
       In p (comment_people u)
       <-> In p (get_maintainers u)
           \/ exists c,
                In c (Update.comments u)
                /\ Comment.anonymous c = false
                /\ Comment.author c <> "bodhi"
                /\ Comment.author c = p.
Proof.
  unfold comment_people. cbv zeta.
  destruct (fold_set_add (get_maintainers u) [] (NoDup_nil _)) as [Hnd0 Hin0].
  revert Hnd0 Hin0.
  generalize (fold_left (fun people person => Py.set_add person people)
                (get_maintainers u) []).
  intros s Hnd0 Hin0.
  assert (H : forall l s0, NoDup s0 ->
            let r := fold_left
                       (fun people c =>
                          if Comment.anonymous c
                             || (Comment.author c =? "bodhi")%string
                          then people else Py.set_add (Comment.author c) people)
                       l s0 in
            NoDup r
            /\ forall p, In p r
                         <-> In p s0
                             \/ exists c, In c l /\ Comment.anonymous c = false
                                          /\ Comment.author c <> "bodhi"
                                          /\ Comment.author c = p).
  { induction l as [| c l IH]; intros s0 Hs0; cbn [fold_left]; cbv zeta.
    - split; [assumption|]. intros p. split; [auto|].
      intros [H | (c & [] & _)]; assumption.
    - destruct (Comment.anonymous c || (Comment.author c =? "bodhi")%string)
        eqn:Hskip.
      + destruct (IH s0 Hs0) as [Hnd Hin]. cbv zeta in Hnd, Hin.
        split; [assumption|]. intros p. rewrite Hin. split.
        * intros [Hp | (c' & Hc' & H')]; [now left|].
          right. exists c'. auto with datatypes.
        * intros [Hp | (c' & [<- | Hc'] & Han & Hb & Hp)]; [now left | |].
          -- apply orb_true_iff in Hskip. destruct Hskip as [Hs | Hs];
               [congruence | apply String.eqb_eq in Hs; contradiction].
          -- right. exists c'. auto.
      + apply orb_false_iff in Hskip. destruct Hskip as [Han Hb].
        apply String.eqb_neq in Hb.
        destruct (IH _ (set_add_NoDup (Comment.author c) s0 Hs0)) as [Hnd Hin].
        cbv zeta in Hnd, Hin. split; [assumption|]. intros p.
        rewrite Hin, set_add_In. split.
        * intros [[-> | Hp] | (c' & Hc' & H')].
          -- right. exists c. auto with datatypes.
          -- now left.
          -- right. exists c'. auto with datatypes.
        * intros [Hp | (c' & [<- | Hc'] & Han' & Hb' & Hp)].
          -- left. now right.
          -- left. left. now symmetry.
          -- right. exists c'. auto. }
  destruct (H (Update.comments u) s Hnd0) as [Hnd Hin]. cbv zeta in Hnd, Hin.
  split; [exact Hnd|]. intros p. rewrite Hin, Hin0. cbn. tauto.
Qed.

(** *** [update_bugs] *)

Lemma self_bugs_drop (bugs : list Z) (bug : Bug.t) (bw : BugWorld) :
  self_bugs (drop_bug bugs bug bw)
  = if Py.in_Z (Bug.bug_id bug) bugs then self_bugs bw
    else list_remove bug (self_bugs bw).
Proof.
  unfold drop_bug. destruct (Py.in_Z (Bug.bug_id bug) bugs); cbn [negb].
  - reflexivity.
  - match goal with |- context [if ?c then _ else _] => destruct c end;
      reflexivity.
Qed.

Lemma list_remove_app (bug : Bug.t) (pre rest : list Bug.t) :
  ~ In (Bug.bug_id bug) (map Bug.bug_id pre) ->
  list_remove bug (pre ++ bug :: rest)%list = (pre ++ rest)%list.
Proof.
  induction pre as [| y pre IH]; intros Hn; cbn.
  - unfold bug_eqb. now rewrite Z.eqb_refl.
  - cbn in Hn. unfold bug_eqb at 1.
    destruct (Z.eqb_spec (Bug.bug_id y) (Bug.bug_id bug)) as [E | E].
    + exfalso. apply Hn. now left.
    + f_equal. apply IH. intros H. apply Hn. now right.
Qed.

Lemma nth_error_middle {A} (pre rest : list A) :
  nth_error (pre ++ rest)%list (List.length pre) = nth_error rest 0.
Proof.
  rewrite nth_error_app2 by lia. now rewrite Nat.sub_diag.
Qed.

Lemma prune_bugs_from (bugs : list Z) (fuel : nat) :
  forall (rest pre : list Bug.t) (bw : BugWorld),
    self_bugs bw = (pre ++ rest)%list ->
    NoDup (map Bug.bug_id (pre ++ rest)%list) ->
    (List.length rest < fuel)%nat ->
    self_bugs (prune_bugs fuel (List.length pre) bugs bw)
    = (pre ++ kept bugs rest)%list.
Proof.
  induction fuel as [| fuel IH]; intros rest pre bw Hself Hnd Hlen; [lia|].
  cbn [prune_bugs]. rewrite Hself, nth_error_middle.
  destruct rest as [| bug rest]; cbn [nth_error kept].
  - exact Hself.
  - assert (Hdrop := self_bugs_drop bugs bug bw).
    destruct (Py.in_Z (Bug.bug_id bug) bugs).
    + replace (S (List.length pre)) with (List.length (pre ++ [bug])%list)
        by (rewrite length_app; cbn; lia).
      rewrite (IH rest (pre ++ [bug])%list).
      * now rewrite <- app_assoc.
      * rewrite Hdrop, Hself. now rewrite <- app_assoc.
      * now rewrite <- app_assoc.
      * cbn in Hlen. lia.
    + rewrite Hself, list_remove_app in Hdrop.
      2:{ rewrite map_app in Hnd. cbn in Hnd.
          apply NoDup_remove_2 in Hnd. intros H. apply Hnd.
          apply in_or_app. now left. }
      assert (Hnd' : NoDup (map Bug.bug_id (pre ++ rest)%list)).
      { rewrite map_app in Hnd |- *. cbn in Hnd.
        now apply NoDup_remove_1 in Hnd. }
      destruct rest as [| skipped rest].
      * destruct fuel as [| fuel]; cbn [prune_bugs]; [exact Hdrop|].
        rewrite Hdrop. rewrite nth_error_app2 by lia.
        replace (S (List.length pre) - List.length pre)%nat with 1%nat by lia.
        cbn. exact Hdrop.
      * replace (S (List.length pre)) with (List.length (pre ++ [skipped])%list)
          by (rewrite length_app; cbn; lia).
        rewrite (IH rest (pre ++ [skipped])%list).
        -- now rewrite <- app_assoc.
        -- rewrite Hdrop. now rewrite <- app_assoc.
        -- now rewrite <- app_assoc.
        -- cbn in Hlen. lia.
Qed.

Lemma attach_bug_keeps (bz : BzEnv) (n : Z) (bw : BugWorld) (b : Bug.t) :
  In b (self_bugs bw) -> In b (self_bugs (snd (attach_bug bz n bw))).
Proof.
  intros Hin. unfold attach_bug.
  destruct (bug_query_one (bug_table bw) n) as [found |].
  - destruct (negb (existsb (bug_eqb found) (self_bugs bw))); cbn;
      [apply in_or_app; now left | assumption].
  - destruct (bodhi_email bz); [destruct (getbug bz n) |]; cbn;
      try assumption; apply in_or_app; now left.
Qed.

Lemma attach_bugs_keeps (bz : BzEnv) (bugs : list Z) :
  forall (bw : BugWorld) (b : Bug.t),
    In b (self_bugs bw) -> In b (self_bugs (snd (attach_bugs bz bugs bw))).
Proof.
  induction bugs as [| n bugs IH]; intros bw b Hin; cbn [attach_bugs].
  - exact Hin.
  - assert (H := attach_bug_keeps bz n bw b Hin).
    destruct (attach_bug bz n bw) as [[|] bw']; cbn [snd] in H |- *.
    + now apply IH.
    + exact H.
Qed.

Lemma bug_query_one_id (rows : list Bug.t) (n : Z) (b : Bug.t) :
  bug_query_one rows n = Some b -> Bug.bug_id b = n.
Proof.
  unfold bug_query_one. intros H.
  assert (Hin : In b (filter (fun b => Bug.bug_id b =? n) rows)).
  { destruct (filter (fun b => Bug.bug_id b =? n) rows) as [| x [| y l]];
      inversion H. now left. }
  apply filter_In in Hin. now apply Z.eqb_eq.
Qed.

Lemma attach_bug_offline (bz : BzEnv) (n : Z) (bw : BugWorld) :
  bodhi_email bz = false ->
  fst (attach_bug bz n bw) = Done
  /\ exists b, In b (self_bugs (snd (attach_bug bz n bw))) /\ Bug.bug_id b = n.
Proof.
  intros Hoff. unfold attach_bug. rewrite Hoff.
  destruct (bug_query_one (bug_table bw) n) as [found |] eqn:Hq.
  - apply bug_query_one_id in Hq.
    destruct (existsb (bug_eqb found) (self_bugs bw)) eqn:Hex; cbn.
    + split; [reflexivity|]. apply existsb_exists in Hex.
      destruct Hex as (b & Hb & Heq). exists b. split; [assumption|].
      unfold bug_eqb in Heq. apply Z.eqb_eq in Heq. congruence.
    + split; [reflexivity|]. exists found. split; [| assumption].
      apply in_or_app. right. now left.
  - cbn. split; [reflexivity|]. exists (new_Bug bz n). split; [| reflexivity].
    apply in_or_app. right. now left.
Qed.

Lemma attach_bugs_offline (bz : BzEnv) (bugs : list Z) :
  bodhi_email bz = false ->
  forall bw : BugWorld,
    fst (attach_bugs bz bugs bw) = Done
    /\ forall n, In n bugs ->
         exists b, In b (self_bugs (snd (attach_bugs bz bugs bw)))
                   /\ Bug.bug_id b = n.
Proof.
  intros Hoff. induction bugs as [| m bugs IH]; intros bw; cbn [attach_bugs].
  - split; [reflexivity | intros n []].
  - destruct (attach_bug_offline bz m bw Hoff) as [Hd (b & Hb & Hid)].
    destruct (attach_bug bz m bw) as [o bw']. cbn [fst snd] in Hd, Hb.
    subst o. destruct (IH bw') as [Hd' Hall]. split; [exact Hd'|].
    intros n [<- | Hn].
    + exists b. split; [| assumption]. now apply attach_bugs_keeps.
    + now apply Hall.
Qed.

Lemma prune_bugs_whole (bugs : list Z) (bw : BugWorld) :
  NoDup (map Bug.bug_id (self_bugs bw)) ->
  self_bugs (prune_bugs (S (List.length (self_bugs bw))) 0 bugs bw)
  = kept bugs (self_bugs bw).
Proof.
  intros Hnd.
  exact (prune_bugs_from bugs (S (List.length (self_bugs bw))) (self_bugs bw) []
           bw eq_refl Hnd (Nat.lt_succ_diag_r _)).
Qed.

(** X22: The first loop of [update_bugs] removes from [self.bugs] while it
    iterates over it: on a list without repeated bug ids, what it leaves
    is [kept], so that the bug after each removed one is never examined. *)
Theorem update_bugs_first_loop (bugs : list Z) (bw : BugWorld) :
  NoDup (map Bug.bug_id (self_bugs bw)) ->
  self_bugs (prune_bugs (S (List.length (self_bugs bw))) 0 bugs bw)
  = kept bugs (self_bugs bw).
Proof.
  exact (prune_bugs_whole bugs bw).
Qed.

Lemma update_bugs_first_loop_witness :
  NoDup (map Bug.bug_id (self_bugs ex_bug_world))
  /\ self_bugs (prune_bugs (S (List.length (self_bugs ex_bug_world))) 0 [3]
                  ex_bug_world)
     = [Bug.mk 2 "two" false None false; Bug.mk 3 "three" false None false].
Proof.
  assert (Hnd : NoDup (map Bug.bug_id (self_bugs ex_bug_world))).
  { cbn. repeat constructor; cbn; intuition discriminate. }
  split; [exact Hnd|].
  rewrite (update_bugs_first_loop [3] ex_bug_world Hnd). reflexivity.
Defined.

(** X23: [update_bugs] does not remove every bug that is missing from [bugs]:
    when the first bug of the update is missing, the second one is still
    attached afterwards, whether it is asked for or not. *)
Theorem update_bugs_keeps_second (bz : BzEnv) (bugs : list Z) (bw : BugWorld)
  (first second : Bug.t) (rest : list Bug.t) :
  self_bugs bw = first :: second :: rest ->
  NoDup (map Bug.bug_id (self_bugs bw)) ->
  Py.in_Z (Bug.bug_id first) bugs = false ->
  In second (self_bugs (snd (update_bugs bz bugs bw))).
Proof.
  intros Hself Hnd Hfirst. unfold update_bugs. cbv zeta.
  apply attach_bugs_keeps.
  rewrite (prune_bugs_whole bugs bw Hnd).
  rewrite Hself. cbn [kept]. rewrite Hfirst. now left.
Qed.

Lemma update_bugs_keeps_second_witness :
  Py.in_Z 2 [3] = false
  /\ In (Bug.mk 2 "two" false None false)
       (self_bugs (snd (update_bugs ex_bz [3] ex_bug_world))).
Proof.
  split; [reflexivity|].
  apply (update_bugs_keeps_second ex_bz [3] ex_bug_world
           (Bug.mk 1 "one" false None false) (Bug.mk 2 "two" false None false)
           [Bug.mk 3 "three" false None false]).
  - reflexivity.
  - cbn. repeat constructor; cbn; intuition discriminate.
  - reflexivity.
Defined.

Lemma attach_bugs_unasked (bz : BzEnv) (getbug' : Z -> option BzBug)
  (bugs : list Z) :
  bodhi_email bz = false ->
  forall bw : BugWorld,
    attach_bugs (mk_BzEnv false getbug' (null_title bz)) bugs bw
    = attach_bugs bz bugs bw.
Proof.
  intros Hoff. induction bugs as [| n bugs IH]; intros bw; [reflexivity|].
  cbn [attach_bugs].
  assert (H : attach_bug (mk_BzEnv false getbug' (null_title bz)) n bw
              = attach_bug bz n bw).
  { unfold attach_bug. rewrite Hoff. cbn [bodhi_email]. reflexivity. }
  rewrite H. destruct (attach_bug bz n bw) as [[|] bw']; [apply IH | reflexivity].
Qed.

(** X24: without [bodhi_email], [update_bugs] does not ask bugzilla: what
    it returns and the state it leaves are the same whatever [getbug]
    would answer.  It cannot end in a fault, and afterwards the update has
    a bug for every id of [bugs]. *)
Theorem update_bugs_offline (bz : BzEnv) (bugs : list Z) (bw : BugWorld) :
  bodhi_email bz = false ->
  (forall getbug' : Z -> option BzBug,
     update_bugs (mk_BzEnv false getbug' (null_title bz)) bugs bw
     = update_bugs bz bugs bw)
  /\ fst (update_bugs bz bugs bw) = Done
  /\ forall n, In n bugs ->
       exists b, In b (self_bugs (snd (update_bugs bz bugs bw)))
                 /\ Bug.bug_id b = n.
Proof.
  intros Hoff. split.
  - intros getbug'. unfold update_bugs. cbv zeta.
    now apply attach_bugs_unasked.
  - unfold update_bugs. cbv zeta. now apply attach_bugs_offline.
Qed.

Lemma update_bugs_offline_witness :
  bodhi_email ex_bz = false
  /\ (forall getbug' : Z -> option BzBug,
        update_bugs (mk_BzEnv false getbug' (null_title ex_bz)) [3; 7]
          ex_bug_world
        = update_bugs ex_bz [3; 7] ex_bug_world)
  /\ fst (update_bugs ex_bz [3; 7] ex_bug_world) = Done
  /\ forall n, In n [3; 7] ->
       exists b, In b (self_bugs (snd (update_bugs ex_bz [3; 7] ex_bug_world)))
                 /\ Bug.bug_id b = n.
Proof.
  split; [reflexivity|].
  apply (update_bugs_offline ex_bz [3; 7] ex_bug_world). reflexivity.
Defined.

(** *** [Build.get_latest] *)

Lemma find_first {A} (f : A -> bool) (pre post : list A) (x : A) :
  (forall y, In y pre -> f y = false) -> f x = true ->
  find f (pre ++ x :: post)%list = Some x.
Proof.
  intros Hpre Hx. induction pre as [| y pre IH]; cbn.
  - now rewrite Hx.
  - rewrite (Hpre y (or_introl eq_refl)). apply IH.
    intros z Hz. apply Hpre. now right.
Qed.

Lemma first_above_some (env : Env) (lt : Latest) (evr : EVR)
  (builds : list KojiBuild) (l : list string) :
  first_above env lt evr builds None = Some l ->
  exists build,
    In build builds
    /\ labelCompare env evr (build_evr env build) < 0
    /\ l = get_nvr lt (kb_nvr build).
Proof.
  unfold first_above.
  destruct (find _ builds) as [build |] eqn:Hfind; [| discriminate].
  intros [= <-]. apply find_some in Hfind. destruct Hfind as [Hin Hlt].
  exists build. repeat split; [assumption | now apply Z.ltb_lt].
Qed.

Lemma first_above_none (env : Env) (lt : Latest) (evr : EVR)
  (builds : list KojiBuild) :
  (forall build, In build builds ->
     0 <= labelCompare env evr (build_evr env build)) ->
  first_above env lt evr builds None = None.
Proof.
  intros Hall. unfold first_above.
  destruct (find _ builds) as [build |] eqn:Hfind; [| reflexivity].
  apply find_some in Hfind. destruct Hfind as [Hin Hlt].
  apply Z.ltb_lt in Hlt. specialize (Hall build Hin). lia.
Qed.

(** X25: What [get_latest] returns is the dash-joined [get_nvr] of a build
    that koji lists for the package under the stable tag or the dist tag
    of the release, and that [rpm.labelCompare] puts above this build. *)
Theorem get_latest_sound (env : Env) (lt : Latest) (b : Build.t) (s : string) :
  get_latest env lt b = Some s ->
  exists tag build,
    In tag [Release.stable_tag (Build.release b); Release.dist_tag (Build.release b)]
    /\ In build (getLatestBuilds lt tag (Package.name (Build.package b)))
    /\ labelCompare env (build_evr env (getBuild env (Build.nvr b)))
         (build_evr env build) < 0
    /\ s = Py.join "-" (get_nvr lt (kb_nvr build)).
Proof.
  unfold get_latest. cbv zeta. cbn [latest_in_tags].
  set (evr := build_evr env (getBuild env (Build.nvr b))).
  set (pkg := Package.name (Build.package b)).
  destruct (first_above env lt evr
              (getLatestBuilds lt (Release.stable_tag (Build.release b)) pkg) None)
    as [l1 |] eqn:H1.
  - destruct (first_above_some _ _ _ _ _ H1) as (build & Hin & Hlt & ->).
    destruct (nonempty (Some (get_nvr lt (kb_nvr build)))) eqn:Hne.
    + rewrite Hne. intros [= <-].
      exists (Release.stable_tag (Build.release b)), build. cbn. auto.
    + unfold first_above.
      destruct (find _ (getLatestBuilds lt (Release.dist_tag (Build.release b)) pkg))
        as [build2 |] eqn:Hfind.
      * destruct (nonempty (Some (get_nvr lt (kb_nvr build2)))) eqn:Hne2;
          rewrite Hne2; [| discriminate].
        intros [= <-]. apply find_some in Hfind. destruct Hfind as [Hin2 Hlt2].
        apply Z.ltb_lt in Hlt2.
        exists (Release.dist_tag (Build.release b)), build2. cbn. auto.
      * rewrite Hne. rewrite Hne. discriminate.
  - cbn [nonempty].
    destruct (first_above env lt evr
                (getLatestBuilds lt (Release.dist_tag (Build.release b)) pkg) None)
      as [l2 |] eqn:H2; [| cbn; discriminate].
    destruct (first_above_some _ _ _ _ _ H2) as (build & Hin & Hlt & ->).
    destruct (nonempty (Some (get_nvr lt (kb_nvr build)))) eqn:Hne;
      rewrite Hne; [| discriminate].
    intros [= <-]. exists (Release.dist_tag (Build.release b)), build. cbn. auto.
Qed.

Lemma get_latest_sound_witness :
  get_latest ex_env ex_latest ex_build = Some "kernel-2.6.5-1.fc9"
  /\ exists tag build,
       In tag [Release.stable_tag (Build.release ex_build);
               Release.dist_tag (Build.release ex_build)]
       /\ In build (getLatestBuilds ex_latest tag
                      (Package.name (Build.package ex_build)))
       /\ labelCompare ex_env
            (build_evr ex_env (getBuild ex_env (Build.nvr ex_build)))
            (build_evr ex_env build) < 0
       /\ "kernel-2.6.5-1.fc9" = Py.join "-" (get_nvr ex_latest (kb_nvr build)).
Proof.
  split; [reflexivity|].
  apply (get_latest_sound ex_env ex_latest ex_build "kernel-2.6.5-1.fc9").
  reflexivity.
Defined.

(** [get_latest] returns [None] when no build listed under the two tags
    compares above this build. *)
Lemma get_latest_none (env : Env) (lt : Latest) (b : Build.t) :
  (forall tag build,
     In tag [Release.stable_tag (Build.release b); Release.dist_tag (Build.release b)] ->
     In build (getLatestBuilds lt tag (Package.name (Build.package b))) ->
     0 <= labelCompare env (build_evr env (getBuild env (Build.nvr b)))
            (build_evr env build)) ->
  get_latest env lt b = None.
Proof.
  intros Hall. unfold get_latest. cbv zeta. cbn [latest_in_tags].
  rewrite first_above_none by (intros build; apply Hall; cbn; auto).
  cbn [nonempty].
  rewrite first_above_none by (intros build; apply Hall; cbn; auto).
  reflexivity.
Qed.

Lemma get_latest_none_witness :
  get_latest ex_env (mk_Latest (fun _ _ => []) (fun _ => [])) ex_build = None.
Proof.
  apply (get_latest_none ex_env (mk_Latest (fun _ _ => []) (fun _ => []))
           ex_build).
  intros tag build _ [].
Defined.

(** X26: The stable tag has precedence: the first build under it that compares
    above this build is the answer, whatever the dist tag holds. *)
Theorem get_latest_stable_first (env : Env) (lt : Latest) (b : Build.t)
  (pre post : list KojiBuild) (build : KojiBuild) :
  getLatestBuilds lt (Release.stable_tag (Build.release b))
    (Package.name (Build.package b)) = (pre ++ build :: post)%list ->
  (forall older, In older pre ->
     0 <= labelCompare env (build_evr env (getBuild env (Build.nvr b)))
            (build_evr env older)) ->
  labelCompare env (build_evr env (getBuild env (Build.nvr b)))
    (build_evr env build) < 0 ->
  get_nvr lt (kb_nvr build) <> [] ->
  get_latest env lt b = Some (Py.join "-" (get_nvr lt (kb_nvr build))).
Proof.
  intros Hlist Hpre Hlt Hne.
  assert (H : first_above env lt (build_evr env (getBuild env (Build.nvr b)))
                (getLatestBuilds lt (Release.stable_tag (Build.release b))
                   (Package.name (Build.package b))) None
              = Some (get_nvr lt (kb_nvr build))).
  { unfold first_above. rewrite Hlist, (find_first _ pre post build).
    - reflexivity.
    - intros y Hy. apply Z.ltb_ge. now apply Hpre.
    - now apply Z.ltb_lt. }
  unfold get_latest. cbv zeta. cbn [latest_in_tags]. rewrite !H.
  destruct (get_nvr lt (kb_nvr build)) as [| x l]; [contradiction|].
  reflexivity.
Qed.

Lemma get_latest_stable_first_witness :
  get_latest ex_env ex_latest ex_build = Some "kernel-2.6.5-1.fc9".
Proof.
  apply (get_latest_stable_first ex_env ex_latest ex_build [] []
           (mk_KojiBuild "kernel" "2.6.5" "1.fc9" None "kernel-2.6.5-1.fc9")).
  - reflexivity.
  - intros older [].
  - reflexivity.
  - discriminate.
Defined.

(** *** [update_cves] on a table without repeated ids *)

Lemma NoDup_snoc {A} (l : list A) (x : A) :
  NoDup l -> ~ In x l -> NoDup (l ++ [x])%list.
Proof.
  induction 1 as [| a l Ha Hl IH]; intros Hx; cbn.
  - constructor; [intros [] | constructor].
  - constructor.
    + rewrite in_app_iff. cbn. intros [H | [H | []]]; [contradiction|].
      apply Hx. now left.
    + apply IH. intros H. apply Hx. now right.
Qed.

Lemma cve_rows_uniq (rows : list CVE.t) (id : string) :
  NoDup (map CVE.cve_id rows) ->
  filter (fun c => (CVE.cve_id c =? id)%string) rows
  = if existsb (CVE.eqb (CVE.mk id)) rows then [CVE.mk id] else [].
Proof.
  induction rows as [| [x] rows IH]; intros Hnd; [reflexivity|].
  cbn in Hnd. inversion Hnd as [| ? ? Hx Hnd']; subst.
  cbn [filter existsb CVE.cve_id]. unfold CVE.eqb at 1. cbn [CVE.cve_id].
  rewrite (String.eqb_sym id x).
  destruct (String.eqb_spec x id) as [-> | Hne]; cbn [orb].
  - rewrite (IH Hnd').
    destruct (existsb (CVE.eqb (CVE.mk id)) rows) eqn:Hex; [| reflexivity].
    exfalso. apply Hx. apply existsb_CVE_In in Hex.
    now apply (in_map CVE.cve_id) in Hex.
  - now apply IH.
Qed.

Lemma cve_query_uniq (rows : list CVE.t) (id : string) :
  NoDup (map CVE.cve_id rows) ->
  cve_query_one rows id
  = if existsb (CVE.eqb (CVE.mk id)) rows then Some (CVE.mk id) else None.
Proof.
  intros Hnd. unfold cve_query_one. rewrite (cve_rows_uniq rows id Hnd).
  now destruct (existsb (CVE.eqb (CVE.mk id)) rows).
Qed.

Lemma attach_cve_uniq (id : string) (known : list string) (w : World) :
  cves_settled known w ->
  exists w', attach_cve id w = (Return tt, w') /\ cves_settled (id :: known) w'.
Proof.
  intros [Hnd Hknown]. unfold attach_cve, bind, get_cve_table, get_self.
  rewrite (cve_query_uniq _ id Hnd).
  destruct (existsb (CVE.eqb (CVE.mk id)) (cve_table w)) eqn:Hrow.
  - apply existsb_CVE_In in Hrow.
    destruct (existsb (CVE.eqb (CVE.mk id)) (Update.cves (self w))) eqn:Hex;
      cbn [negb when ret modify_self]; eexists; (split; [reflexivity|]);
      (split; [exact Hnd|]); cbn.
    + apply existsb_CVE_In in Hex.
      intros id' [<- | Hin]; [auto | now apply Hknown].
    + intros id' [<- | Hin].
      * split; [assumption | apply in_or_app; right; now left].
      * destruct (Hknown id' Hin). split; [assumption|].
        apply in_or_app. now left.
  - cbn. eexists; (split; [reflexivity|]); split; cbn.
    + rewrite map_app. cbn. apply NoDup_snoc; [assumption|].
      intros Hin. apply in_map_iff in Hin. destruct Hin as ([x] & Hx & Hin).
      cbn in Hx. subst x. apply existsb_CVE_In in Hin. congruence.
    + intros id' [<- | Hin].
      * split; apply in_or_app; right; now left.
      * destruct (Hknown id' Hin). split; apply in_or_app; now left.
Qed.

Lemma cves_settled_incl (a b : list string) (w : World) :
  incl a b -> cves_settled b w -> cves_settled a w.
Proof.
  intros Hincl [Hnd H]. split; [assumption|]. intros id Hid. apply H, Hincl, Hid.
Qed.

Lemma attach_cves_uniq (ids : list string) :
  forall (known : list string) (w : World),
    cves_settled known w ->
    exists w', for_ ids attach_cve w = (Return tt, w')
               /\ cves_settled (ids ++ known) w'.
Proof.
  induction ids as [| id ids IH]; intros known w Hw.
  - exists w. split; [reflexivity | exact Hw].
  - cbn [for_]. unfold bind.
    destruct (attach_cve_uniq id known w Hw) as (w1 & Hrun1 & Hw1).
    destruct (IH (id :: known) w1 Hw1) as (w' & Hrun & Hw').
    rewrite Hrun1, Hrun. exists w'. split; [reflexivity|].
    apply (cves_settled_incl _ (ids ++ id :: known)); [| assumption].
    intros x [<- | Hx]; apply in_or_app.
    + right. now left.
    + apply in_app_or in Hx. destruct Hx; [now left | right; now right].
Qed.

Lemma attach_cves_settled (ids all : list string) (w : World) :
  incl ids all -> cves_settled all w ->
  for_ ids attach_cve w = (Return tt, w).
Proof.
  intros Hincl [Hnd H]. induction ids as [| id ids IH]; [reflexivity|].
  cbn [for_]. unfold bind.
  destruct (H id (Hincl id (or_introl eq_refl))) as [Hrow Hheld].
  assert (Hone : attach_cve id w = (Return tt, w)).
  { unfold attach_cve, bind, get_cve_table, get_self.
    rewrite (cve_query_uniq _ id Hnd).
    apply existsb_CVE_In in Hrow, Hheld. now rewrite Hrow, Hheld. }
  rewrite Hone. apply IH. intros x Hx. apply Hincl. now right.
Qed.

(** X27: On a table of CVEs without repeated ids, [update_cves] is idempotent:
    a second call with the same ids returns and changes nothing. *)
Theorem update_cves_idempotent (ids : list string) (w : World) :
  NoDup (map CVE.cve_id (cve_table w)) ->
  update_cves ids (snd (update_cves ids w))
  = (Return tt, snd (update_cves ids w)).
Proof.
  intros Hnd.
  assert (Hw : cves_settled [] w) by (split; [assumption | intros id []]).
  destruct (attach_cves_uniq ids [] w Hw) as (w' & Hrun & Hw').
  assert (Hfirst : update_cves ids w = (Return tt, w')).
  { unfold update_cves, bind, get_self.
    rewrite update_cves_first_loop by auto. now rewrite Hrun. }
  rewrite Hfirst. cbn [snd]. unfold update_cves, bind, get_self.
  rewrite update_cves_first_loop by auto.
  rewrite (attach_cves_settled ids (ids ++ []) w');
    [reflexivity | intros x Hx; apply in_or_app; now left | assumption].
Qed.

Lemma update_cves_idempotent_witness :
  NoDup (map CVE.cve_id (cve_table ex_cve_world))
  /\ Update.cves (self (snd (update_cves ["CVE-2008-0002"] ex_cve_world)))
     = [CVE.mk "CVE-2008-0001"; CVE.mk "CVE-2008-0002"]
  /\ update_cves ["CVE-2008-0002"]
       (snd (update_cves ["CVE-2008-0002"] ex_cve_world))
     = (Return tt, snd (update_cves ["CVE-2008-0002"] ex_cve_world)).
Proof.
  assert (Hnd : NoDup (map CVE.cve_id (cve_table ex_cve_world))).
  { cbn. repeat constructor. intros []. }
  split; [exact Hnd|]. split; [reflexivity|].
  exact (update_cves_idempotent ["CVE-2008-0002"] ex_cve_world Hnd).
Defined.

(** [update_cves] always returns, and it only attaches: the CVEs that the
    update held stay in front of its list, no row leaves the table, and
    the update ends up with a CVE for every id it was given. *)
Lemma update_cves_never_removes (ids : list string) (w : World) :
  exists w', update_cves ids w = (Return tt, w') /\ attached ids w w'.
Proof.
  exact (update_cves_only_attaches ids w).
Qed.

(** *** The string accessors *)

Lemma split_join (sep : ascii) (l : list string) :
  l <> [] ->
  (forall s, In s l -> has_char sep s = false) ->
  Py.split sep (Py.join (String sep "") l) = l.
Proof.
  unfold Py.join. induction l as [| x l IH]; intros Hne Hl; [contradiction|].
  destruct l as [| y l].
  - cbn. apply split_no_sep. apply Hl. now left.
  - change (String.concat (String sep "") (x :: y :: l))
      with (x ++ String sep (String.concat (String sep "") (y :: l))).
    rewrite split_app by (apply Hl; now left).
    rewrite IH; [reflexivity | discriminate |].
    intros s Hs. apply Hl. now right.
Qed.

(** X29: The string of CVE ids can be read back: split at the spaces, the
    string of an update that has CVEs, none with a space in its id, gives
    the ids of its CVEs, in order. *)
Theorem get_cvestring_split (u : Update.t) :
  Update.cves u <> [] ->
  (forall cve, In cve (Update.cves u) -> has_char " " (CVE.cve_id cve) = false) ->
  Py.split " " (get_cvestring u) = map CVE.cve_id (Update.cves u).
Proof.
  intros Hne Hids. unfold get_cvestring. apply split_join.
  - destruct (Update.cves u); [contradiction | discriminate].
  - intros s Hs. apply in_map_iff in Hs. destruct Hs as (cve & <- & Hin).
    now apply Hids.
Qed.

Lemma prefix_slash_app (a b : string) :
  String.prefix "/" a = true -> String.prefix "/" (a ++ b) = true.
Proof.
  destruct a as [| c a]; [discriminate|]. cbn [String.prefix append].
  destruct (Ascii.ascii_dec "/" c); [| discriminate].
  intros _. now destruct (a ++ b)%string.
Qed.

Lemma join2_absolute (path b : string) :
  String.prefix "/" path = true -> String.prefix "/" (Os.join2 path b) = true.
Proof.
  intros Hp. unfold Os.join2.
  destruct (String.prefix "/" b) eqn:Hb; [exact Hb|].
  destruct ((path =? "")%string || Py.endswith path "/");
    now apply prefix_slash_app.
Qed.

(** X30: [get_url] is documented to return a relative URL; what it returns
    always starts with a slash. *)
Theorem get_url_absolute (u : Update.t) :
  String.prefix "/" (get_url u) = true.
Proof.
  unfold get_url, Os.path_join.
  assert (H : forall p a, String.prefix "/" a = true ->
                          String.prefix "/" (fold_left Os.join2 p a) = true).
  { induction p as [| b p IH]; intros a Ha; [exact Ha|].
    cbn [fold_left]. apply IH. now apply join2_absolute. }
  apply H. reflexivity.
Qed.

Lemma get_cvestring_split_witness :
  get_cvestring (self ex_cve_world) = "CVE-2008-0001"
  /\ Py.split " " (get_cvestring (self ex_cve_world)) = ["CVE-2008-0001"].
Proof.
  split; [reflexivity|].
  apply (get_cvestring_split (self ex_cve_world)).
  - discriminate.
  - intros cve [<- | []]. reflexivity.
Defined.
